(** * The per-operator dispatch table of ATen (c10::DispatchTable)

    A shallow embedding of [aten/src/ATen/core/dispatch/DispatchTable.h]:
    the slot map [c10::impl::KernelFunctionTable] and the per-operator
    [c10::DispatchTable] built on it, followed by the properties of both.

    Conventions of the embedding.
    - A [TensorTypeId] is the [uint8_t] value of the enumerator, a [nat];
      [static_cast<uint8_t>] on an enumerator is the identity.
    - [std::array<KernelFunction, N>] is a [list] read with [!!] and written
      with [<[i:=x]>]; an index outside the array is undefined in C++ and is
      the distinct outcome [OutOfBounds] here.
    - [size_t] is a [Z] reduced modulo [2^64] after [++] and [--].
    - [TORCH_INTERNAL_ASSERT] throws: the outcome [AssertFailed] carries the
      object as it is when the exception leaves the member function.
    - [TORCH_WARN] is the list of warnings a call returns. *)

From Stdlib Require Import ZArith String DecimalString Sorted.
From stdpp Require Import base tactics option list strings.

Local Open Scope string_scope.
Local Open Scope Z_scope.

(** The enumeration [c10::TensorTypeId] ([c10/core/TensorTypeId.h]) is not
    part of the sources at hand.  Its two enumerators used by the table,
    [NumTensorIds] and [UndefinedTensorId], are parameters of every
    definition that mentions them. *)
Abbreviation TensorTypeId := nat (only parsing).

(** Outcome of a member function on an object of type [S]. *)
Inductive outcome (S A : Type) : Type :=
| Returned (a : A) (s : S)
| AssertFailed (s : S)
| OutOfBounds.

Arguments Returned {S A} a s.
Arguments AssertFailed {S A} s.
Arguments OutOfBounds {S A}.

(** [size_t] arithmetic. *)
Definition size_t_modulus : Z := 2 ^ 64.

Definition size_t_incr (n : Z) : Z := (n + 1) mod size_t_modulus.

Definition size_t_decr (n : Z) : Z := (n - 1) mod size_t_modulus.

(** ** KernelFunction *)

Module KernelFunction.

(** [KernelFunction::InternalBoxedKernelFunction*]: a function pointer,
    known by its identity only. *)
Abbreviation InternalBoxedKernelFunction := nat (only parsing).

(** Modelled from the spec: the class [KernelFunction]
    ([ATen/core/boxing/KernelFunction.h]) is not part of the sources at hand.
    The spec describes a kernel value as an opaque callable with a validity
    predicate, a default invalid state, move assignment, and a mutator that
    installs a calling-convention retrofit pointer.  [callable_] is the
    identity of the callable ([None] in the default state) and
    [manuallyBoxed_] the retrofit pointer installed last, if any. *)
Record t : Type := mk {
  callable_ : option nat;
  manuallyBoxed_ : option InternalBoxedKernelFunction
}.

(** Modelled from the spec: the default constructor, [KernelFunction()] and
    [{}] in the source. *)
Definition empty : t := mk None None.

(** Modelled from the spec: the validity predicate [isValid()]. *)
Definition isValid (k : t) : bool :=
  match callable_ k with
  | Some _ => true
  | None => false
  end.

(** Modelled from the spec: the mutator [setManuallyBoxedKernel_(func)]. *)
Definition setManuallyBoxedKernel_ (func : InternalBoxedKernelFunction) (k : t) : t :=
  mk (callable_ k) (Some func).

End KernelFunction.

(** ** KernelFunctionTable, the slot map *)

Module KernelFunctionTable.

Inductive SetKernelResult : Type :=
| ADDED_NEW_KERNEL
| OVERWROTE_EXISTING_KERNEL.

Inductive RemoveKernelIfExistsResult : Type :=
| REMOVED_KERNEL
| KERNEL_DIDNT_EXIST.

Record t : Type := mk {
  kernels_ : list KernelFunction.t;
  kernelCount_ : Z
}.

Section members.

Variable NumTensorIds : nat.
Variable UndefinedTensorId : TensorTypeId.

(** [explicit KernelFunctionTable()] *)
Definition make : t :=
  mk (replicate NumTensorIds KernelFunction.empty) 0.

(** [SetKernelResult setKernel(TensorTypeId dispatchKey, KernelFunction kernel)] *)
Definition setKernel (dispatchKey : TensorTypeId) (kernel : KernelFunction.t)
    (tb : t) : outcome t SetKernelResult :=
  if decide (dispatchKey = UndefinedTensorId) then AssertFailed tb
  else
    match kernels_ tb !! dispatchKey with
    | None => OutOfBounds
    | Some slot =>
        if KernelFunction.isValid slot then
          Returned OVERWROTE_EXISTING_KERNEL
            (mk (<[dispatchKey := kernel]> (kernels_ tb)) (kernelCount_ tb))
        else
          Returned ADDED_NEW_KERNEL
            (mk (<[dispatchKey := kernel]> (kernels_ tb))
                (size_t_incr (kernelCount_ tb)))
    end.

(** [RemoveKernelIfExistsResult removeKernelIfExists(TensorTypeId dispatchKey)] *)
Definition removeKernelIfExists (dispatchKey : TensorTypeId)
    (tb : t) : outcome t RemoveKernelIfExistsResult :=
  match kernels_ tb !! dispatchKey with
  | None => OutOfBounds
  | Some slot =>
      if KernelFunction.isValid slot then
        Returned REMOVED_KERNEL
          (mk (<[dispatchKey := KernelFunction.empty]> (kernels_ tb))
              (size_t_decr (kernelCount_ tb)))
      else
        Returned KERNEL_DIDNT_EXIST tb
  end.

(** [const KernelFunction& operator[](TensorTypeId dispatchKey) const];
    [None] is an index outside the array. *)
Definition at_ (dispatchKey : TensorTypeId) (tb : t) : option KernelFunction.t :=
  kernels_ tb !! dispatchKey.

(** Assignment through [KernelFunction& operator[](TensorTypeId dispatchKey)]:
    the slot changes, the counter does not. *)
Definition assign_at (dispatchKey : TensorTypeId) (kernel : KernelFunction.t)
    (tb : t) : t :=
  mk (<[dispatchKey := kernel]> (kernels_ tb)) (kernelCount_ tb).

(** [size_t size() const] *)
Definition size (tb : t) : Z := kernelCount_ tb.

End members.

End KernelFunctionTable.

(** ** DispatchTable *)

Module DispatchTable.

(** Modelled from the spec: [FunctionSchema] ([ATen/core/function_schema.h])
    is not part of the sources at hand; the table consumes it at construction
    only, for the display name of the operator. *)
Record FunctionSchema : Type := mkSchema {
  operator_name : string
}.

(** Modelled from the spec: [DispatchKeyExtractor]
    ([ATen/core/dispatch/DispatchKeyExtractor.h]) is not part of the sources
    at hand; it is an opaque value built once from the schema, stored and
    handed out, never invoked by the table. *)
Inductive DispatchKeyExtractor : Type :=
| DispatchKeyExtractor_make (schema : FunctionSchema).

(** The two [TORCH_WARN] messages of the class. *)
Inductive warning : Type :=
| WarnOverwroteKernel (operatorName : string) (dispatchKey : TensorTypeId)
| WarnOverwroteCatchall (operatorName : string).

Record t : Type := mk {
  kernels_ : KernelFunctionTable.t;
  catchallKernel_ : KernelFunction.t;
  dispatchKeyExtractor_ : DispatchKeyExtractor;
  operatorName_ : string;
  manuallyBoxedKernel_ : option KernelFunction.InternalBoxedKernelFunction
}.

Definition with_kernels (ks : KernelFunctionTable.t) (d : t) : t :=
  mk ks (catchallKernel_ d) (dispatchKeyExtractor_ d) (operatorName_ d)
     (manuallyBoxedKernel_ d).

Definition with_catchall (k : KernelFunction.t) (d : t) : t :=
  mk (kernels_ d) k (dispatchKeyExtractor_ d) (operatorName_ d)
     (manuallyBoxedKernel_ d).

Section members.

Variable NumTensorIds : nat.
Variable UndefinedTensorId : TensorTypeId.

(** [toString(TensorTypeId)] ([c10/core/TensorTypeId.cpp]) is not part of the
    sources at hand: a parameter. *)
Variable toString : TensorTypeId -> string.

(** [explicit DispatchTable(const FunctionSchema& schema)] *)
Definition make (schema : FunctionSchema) : t :=
  mk (KernelFunctionTable.make NumTensorIds)
     KernelFunction.empty
     (DispatchKeyExtractor_make schema)
     (operator_name schema)
     None.

(** The first statement of [setKernel] and the second of
    [setCatchallKernel]: the by-value argument receives the retrofit when the
    table has one. *)
Definition applyManuallyBoxedKernel (d : t) (kernel : KernelFunction.t)
    : KernelFunction.t :=
  match manuallyBoxedKernel_ d with
  | Some func => KernelFunction.setManuallyBoxedKernel_ func kernel
  | None => kernel
  end.

(** [void setKernel(TensorTypeId dispatchKey, KernelFunction kernel)] *)
Definition setKernel (dispatchKey : TensorTypeId) (kernel : KernelFunction.t)
    (d : t) : outcome t (list warning) :=
  let kernel := applyManuallyBoxedKernel d kernel in
  match KernelFunctionTable.setKernel UndefinedTensorId dispatchKey kernel
          (kernels_ d) with
  | Returned result ks =>
      Returned
        (match result with
         | KernelFunctionTable.OVERWROTE_EXISTING_KERNEL =>
             [WarnOverwroteKernel (operatorName_ d) dispatchKey]
         | KernelFunctionTable.ADDED_NEW_KERNEL => []
         end)
        (with_kernels ks d)
  | AssertFailed ks => AssertFailed (with_kernels ks d)
  | OutOfBounds => OutOfBounds
  end.

(** [void removeKernelIfExists(TensorTypeId dispatchKey)] *)
Definition removeKernelIfExists (dispatchKey : TensorTypeId)
    (d : t) : outcome t unit :=
  match KernelFunctionTable.removeKernelIfExists dispatchKey (kernels_ d) with
  | Returned _ ks => Returned tt (with_kernels ks d)
  | AssertFailed ks => AssertFailed (with_kernels ks d)
  | OutOfBounds => OutOfBounds
  end.

(** [void setCatchallKernel(KernelFunction kernel)] *)
Definition setCatchallKernel (kernel : KernelFunction.t)
    (d : t) : outcome t (list warning) :=
  let warnings :=
    if KernelFunction.isValid (catchallKernel_ d)
    then [WarnOverwroteCatchall (operatorName_ d)] else [] in
  Returned warnings (with_catchall (applyManuallyBoxedKernel d kernel) d).

(** [void removeCatchallKernel()] *)
Definition removeCatchallKernel (d : t) : outcome t unit :=
  if KernelFunction.isValid (catchallKernel_ d)
  then Returned tt (with_catchall KernelFunction.empty d)
  else AssertFailed d.

(** [bool isEmpty() const] *)
Definition isEmpty (d : t) : bool :=
  negb (KernelFunction.isValid (catchallKernel_ d))
  && (KernelFunctionTable.size (kernels_ d) =? 0).

(** The [for] loop of [listAllDispatchKeys] over the remaining values
    [iters] of [iter]; the state is the stream and [has_kernels]. *)
Fixpoint listAllDispatchKeys_loop (ks : KernelFunctionTable.t)
    (iters : list TensorTypeId) (str : string) (has_kernels : bool)
    : option (string * bool) :=
  match iters with
  | [] => Some (str, has_kernels)
  | iter :: iters =>
      match KernelFunctionTable.at_ iter ks with
      | None => None
      | Some slot =>
          if negb (KernelFunction.isValid slot) then
            listAllDispatchKeys_loop ks iters str has_kernels
          else
            let str := if has_kernels then str +:+ ", " else str in
            listAllDispatchKeys_loop ks iters (str +:+ toString iter) true
      end
  end.

(** [std::string listAllDispatchKeys() const]; [None] when the loop reads
    outside the array. *)
Definition listAllDispatchKeys (d : t) : option string :=
  match listAllDispatchKeys_loop (kernels_ d) (seq 0 NumTensorIds) "[" false with
  | None => None
  | Some (str, has_kernels) =>
      let str :=
        if KernelFunction.isValid (catchallKernel_ d) then
          (if has_kernels then str +:+ ", " else str) +:+ "CATCH-ALL"
        else str in
      Some (str +:+ "]")
  end.

(** [const KernelFunction* lookup(TensorTypeId dispatchKey) const]: the outer
    [None] is an index outside the array, [Some None] is [nullptr] and
    [Some (Some slot)] the address of an occupied slot. *)
Definition lookup (dispatchKey : TensorTypeId) (d : t)
    : option (option KernelFunction.t) :=
  match KernelFunctionTable.at_ dispatchKey (kernels_ d) with
  | None => None
  | Some slot =>
      Some (if KernelFunction.isValid slot then Some slot else None)
  end.

(** [const KernelFunction* lookupCatchallKernel() const]: [None] is
    [nullptr]. *)
Definition lookupCatchallKernel (d : t) : option KernelFunction.t :=
  if negb (KernelFunction.isValid (catchallKernel_ d)) then None
  else Some (catchallKernel_ d).

(** [const DispatchKeyExtractor& dispatchKeyExtractor() const] *)
Definition dispatchKeyExtractor (d : t) : DispatchKeyExtractor :=
  dispatchKeyExtractor_ d.

(** [const std::string& operatorName() const] *)
Definition operatorName (d : t) : string := operatorName_ d.

(** The [for] loop of [setManuallyBoxedKernel_] over the remaining values
    [iters] of [iter]. *)
Fixpoint setManuallyBoxedKernel_loop
    (func : KernelFunction.InternalBoxedKernelFunction)
    (iters : list TensorTypeId) (ks : KernelFunctionTable.t)
    : option KernelFunctionTable.t :=
  match iters with
  | [] => Some ks
  | iter :: iters =>
      match KernelFunctionTable.at_ iter ks with
      | None => None
      | Some kernel =>
          setManuallyBoxedKernel_loop func iters
            (if KernelFunction.isValid kernel
             then KernelFunctionTable.assign_at iter
                    (KernelFunction.setManuallyBoxedKernel_ func kernel) ks
             else ks)
      end
  end.

(** [void setManuallyBoxedKernel_(KernelFunction::InternalBoxedKernelFunction* func)]:
    the assertion, then the loop over the keyed slots, and nothing else. *)
Definition setManuallyBoxedKernel_
    (func : KernelFunction.InternalBoxedKernelFunction)
    (d : t) : outcome t unit :=
  match manuallyBoxedKernel_ d with
  | Some _ => AssertFailed d
  | None =>
      match setManuallyBoxedKernel_loop func (seq 0 NumTensorIds) (kernels_ d) with
      | None => OutOfBounds
      | Some ks => Returned tt (with_kernels ks d)
      end
  end.

End members.

End DispatchTable.

(** ** Vocabulary of the properties *)

(** The slot of key [k] is occupied: inside the array and valid. *)
Definition occupied (ks : KernelFunctionTable.t) (k : TensorTypeId) : bool :=
  match KernelFunctionTable.at_ k ks with
  | Some slot => KernelFunction.isValid slot
  | None => false
  end.

(** The occupied keys among the [NumTensorIds] keys, in ascending order. *)
Definition occupiedKeys (NumTensorIds : nat) (ks : KernelFunctionTable.t)
    : list TensorTypeId :=
  filter (fun k => occupied ks k = true) (seq 0 NumTensorIds).

(** The marker of the catch-all kernel in the listing, when there is one. *)
Definition catchallMarker (d : DispatchTable.t) : list string :=
  if KernelFunction.isValid (DispatchTable.catchallKernel_ d)
  then ["CATCH-ALL"] else [].

(** Number of valid slots of the array. *)
Definition validCount (slots : list KernelFunction.t) : nat :=
  length (filter (fun slot => KernelFunction.isValid slot = true) slots).

(** What a slot adds to the count. *)
Definition weight (slot : KernelFunction.t) : Z :=
  if KernelFunction.isValid slot then 1 else 0.

(** The array has its [NumTensorIds] slots; the type [std::array] guarantees
    it in the source. *)
Definition sized (NumTensorIds : nat) (ks : KernelFunctionTable.t) : Prop :=
  length (KernelFunctionTable.kernels_ ks) = NumTensorIds.

(** The occupancy counter equals the number of occupied slots. *)
Definition counted (ks : KernelFunctionTable.t) : Prop :=
  KernelFunctionTable.size ks
  = Z.of_nat (validCount (KernelFunctionTable.kernels_ ks)).

(** What the tables of an operator have in common: the array has its size,
    the counter is exact, and the slot of the undefined key is empty. *)
Definition invariant (NumTensorIds : nat) (UndefinedTensorId : TensorTypeId)
    (d : DispatchTable.t) : Prop :=
  sized NumTensorIds (DispatchTable.kernels_ d)
  /\ counted (DispatchTable.kernels_ d)
  /\ occupied (DispatchTable.kernels_ d) UndefinedTensorId = false.

(** Every keyed slot without a kernel is in the default state of a
    [KernelFunction]. *)
Definition vacant_default (d : DispatchTable.t) : Prop :=
  forall j slot,
    KernelFunctionTable.kernels_ (DispatchTable.kernels_ d) !! j = Some slot ->
    KernelFunction.isValid slot = false ->
    slot = KernelFunction.empty.

(** [sep]-separated concatenation. *)
Fixpoint joinWith (sep : string) (items : list string) : string :=
  match items with
  | [] => ""
  | [item] => item
  | item :: items => item +:+ sep +:+ joinWith sep items
  end.

(** Each item preceded by [sep]. *)
Fixpoint separated (sep : string) (items : list string) : string :=
  match items with
  | [] => ""
  | item :: items => sep +:+ item +:+ separated sep items
  end.

(** Modelled from the spec: [toString(TensorTypeId)] is not part of the
    sources at hand; the spec prints a key as its number, in decimal
    ([[0, 2, CATCH-ALL]], [[1, 4, CATCH-ALL]]). *)
Definition toStringDecimal (k : TensorTypeId) : string :=
  NilEmpty.string_of_uint (Nat.to_uint k).

(** The calls a registry makes on a table. *)
Inductive Op : Type :=
| OpSetKernel (dispatchKey : TensorTypeId) (kernel : KernelFunction.t)
| OpRemoveKernelIfExists (dispatchKey : TensorTypeId)
| OpSetCatchallKernel (kernel : KernelFunction.t)
| OpRemoveCatchallKernel
| OpSetManuallyBoxedKernel (func : KernelFunction.InternalBoxedKernelFunction).

(** The table a call leaves behind, whether it returned or threw; [None] when
    it read outside the array. *)
Definition left_behind {A : Type} (o : outcome DispatchTable.t A)
    : option DispatchTable.t :=
  match o with
  | Returned _ d => Some d
  | AssertFailed d => Some d
  | OutOfBounds => None
  end.

Definition exec (NumTensorIds : nat) (UndefinedTensorId : TensorTypeId)
    (op : Op) (d : DispatchTable.t) : option DispatchTable.t :=
  match op with
  | OpSetKernel k kernel =>
      left_behind (DispatchTable.setKernel UndefinedTensorId k kernel d)
  | OpRemoveKernelIfExists k =>
      left_behind (DispatchTable.removeKernelIfExists k d)
  | OpSetCatchallKernel kernel =>
      left_behind (DispatchTable.setCatchallKernel kernel d)
  | OpRemoveCatchallKernel =>
      left_behind (DispatchTable.removeCatchallKernel d)
  | OpSetManuallyBoxedKernel func =>
      left_behind (DispatchTable.setManuallyBoxedKernel_ NumTensorIds func d)
  end.

(** A registration hands over a kernel, that is a valid [KernelFunction];
    the invalid [KernelFunction] is the content of an empty slot. *)
Definition registers_kernels (op : Op) : Prop :=
  match op with
  | OpSetKernel _ kernel => KernelFunction.isValid kernel = true
  | _ => True
  end.

(** Every key of a call is inside the array. *)
Definition keys_in_range (NumTensorIds : nat) (op : Op) : Prop :=
  match op with
  | OpSetKernel k _ | OpRemoveKernelIfExists k => (k < NumTensorIds)%nat
  | _ => True
  end.

(** The tables of an operator: the constructed one and those left behind by
    calls on them. *)
Inductive reachable (NumTensorIds : nat) (UndefinedTensorId : TensorTypeId)
    (schema : DispatchTable.FunctionSchema) : DispatchTable.t -> Prop :=
| reachable_make :
    reachable NumTensorIds UndefinedTensorId schema
      (DispatchTable.make NumTensorIds schema)
| reachable_exec op d d' :
    reachable NumTensorIds UndefinedTensorId schema d ->
    registers_kernels op ->
    exec NumTensorIds UndefinedTensorId op d = Some d' ->
    reachable NumTensorIds UndefinedTensorId schema d'.

(** A sequence of calls, from left to right. *)
Fixpoint run (NumTensorIds : nat) (UndefinedTensorId : TensorTypeId)
    (ops : list Op) (d : DispatchTable.t) : option DispatchTable.t :=
  match ops with
  | [] => Some d
  | op :: ops =>
      match exec NumTensorIds UndefinedTensorId op d with
      | None => None
      | Some d' => run NumTensorIds UndefinedTensorId ops d'
      end
  end.

(** The slot map after [setKernel] of each kernel of [kernels] at the one key
    [k], with the results reported, in order. *)
Fixpoint setKernels (UndefinedTensorId k : TensorTypeId)
    (kernels : list KernelFunction.t) (ks : KernelFunctionTable.t)
    : option (list KernelFunctionTable.SetKernelResult * KernelFunctionTable.t) :=
  match kernels with
  | [] => Some ([], ks)
  | kernel :: kernels =>
      match KernelFunctionTable.setKernel UndefinedTensorId k kernel ks with
      | Returned r ks' =>
          match setKernels UndefinedTensorId k kernels ks' with
          | Some (rs, ks'') => Some (r :: rs, ks'')
          | None => None
          end
      | _ => None
      end
  end.

(** ** Sample values *)

Module Sample.

(** Three kernels and the invalid one. *)
Definition f1 : KernelFunction.t := KernelFunction.mk (Some 1%nat) None.

Definition f2 : KernelFunction.t := KernelFunction.mk (Some 2%nat) None.

Definition f3 : KernelFunction.t := KernelFunction.mk (Some 3%nat) None.

(** A retrofit pointer. *)
Definition adapter : KernelFunction.InternalBoxedKernelFunction := 7%nat.

(** A key space of eight keys whose first enumerator is the undefined one. *)
Definition NumTensorIds : nat := 8.

Definition UndefinedTensorId : TensorTypeId := 0%nat.

Definition add_schema : DispatchTable.FunctionSchema :=
  DispatchTable.mkSchema "add".

(** The table of operator [add] as constructed. *)
Definition fresh : DispatchTable.t :=
  DispatchTable.make NumTensorIds add_schema.

(** [fresh] after [setKernel(1, f1)], [setKernel(4, f2)] and
    [setCatchallKernel(f3)]. *)
Definition populated : DispatchTable.t :=
  default fresh
    (run NumTensorIds UndefinedTensorId
       [OpSetKernel 1 f1; OpSetKernel 4 f2; OpSetCatchallKernel f3] fresh).

End Sample.

(** Reduce the projections of the records applied to their constructors. *)
Ltac proj :=
  cbn [KernelFunctionTable.kernels_ KernelFunctionTable.kernelCount_
       DispatchTable.kernels_ DispatchTable.catchallKernel_
       DispatchTable.dispatchKeyExtractor_ DispatchTable.operatorName_
       DispatchTable.manuallyBoxedKernel_
       DispatchTable.with_kernels DispatchTable.with_catchall] in *.

(** ** Counting valid slots *)

Section counting.

Implicit Types (slots : list KernelFunction.t) (slot kernel : KernelFunction.t).

Lemma validCount_cons slot slots :
  Z.of_nat (validCount (slot :: slots))
  = weight slot + Z.of_nat (validCount slots).
Proof.
  unfold validCount, weight. rewrite filter_cons.
  destruct (KernelFunction.isValid slot) eqn:E; case_decide;
    try congruence; cbn [length]; lia.
Qed.

Lemma validCount_insert slots i slot kernel :
  slots !! i = Some slot ->
  Z.of_nat (validCount (<[i := kernel]> slots))
  = Z.of_nat (validCount slots) - weight slot + weight kernel.
Proof.
  revert i. induction slots as [|s slots IH]; intros [|i] Hi; try discriminate.
  - injection Hi as ->.
    change (<[0%nat := kernel]> (slot :: slots)) with (kernel :: slots).
    rewrite !validCount_cons. lia.
  - change (<[S i := kernel]> (s :: slots)) with (s :: <[i := kernel]> slots).
    cbn in Hi. rewrite !validCount_cons, (IH i Hi). lia.
Qed.

Lemma validCount_le slots : (validCount slots <= length slots)%nat.
Proof. apply length_filter. Qed.

Lemma validCount_replicate_empty n :
  validCount (replicate n KernelFunction.empty) = 0%nat.
Proof.
  induction n as [|n IH]; [reflexivity|].
  apply Nat2Z.inj. cbn [replicate]. rewrite validCount_cons, IH. reflexivity.
Qed.

(** An invalid slot leaves room below the length. *)
Lemma validCount_lt slots i slot :
  slots !! i = Some slot -> KernelFunction.isValid slot = false ->
  (validCount slots < length slots)%nat.
Proof.
  revert i. induction slots as [|s slots IH]; intros [|i] Hi Hv; try discriminate.
  - injection Hi as ->. pose proof (validCount_le slots).
    pose proof (validCount_cons slot slots) as E. unfold weight in E.
    rewrite Hv in E. cbn [length]. lia.
  - cbn in Hi. specialize (IH i Hi Hv).
    pose proof (validCount_cons s slots) as E. unfold weight in E.
    cbn [length]. destruct (KernelFunction.isValid s); lia.
Qed.

(** A valid slot is counted. *)
Lemma validCount_pos slots i slot :
  slots !! i = Some slot -> KernelFunction.isValid slot = true ->
  (0 < validCount slots)%nat.
Proof.
  revert i. induction slots as [|s slots IH]; intros [|i] Hi Hv; try discriminate.
  - injection Hi as ->.
    pose proof (validCount_cons slot slots) as E. unfold weight in E.
    rewrite Hv in E. lia.
  - cbn in Hi. specialize (IH i Hi Hv).
    pose proof (validCount_cons s slots) as E. unfold weight in E.
    destruct (KernelFunction.isValid s); lia.
Qed.

End counting.

Lemma isValid_empty : KernelFunction.isValid KernelFunction.empty = false.
Proof. reflexivity. Qed.

Lemma isValid_setManuallyBoxedKernel_ func kernel :
  KernelFunction.isValid (KernelFunction.setManuallyBoxedKernel_ func kernel)
  = KernelFunction.isValid kernel.
Proof. reflexivity. Qed.

Lemma isValid_applyManuallyBoxedKernel d kernel :
  KernelFunction.isValid (DispatchTable.applyManuallyBoxedKernel d kernel)
  = KernelFunction.isValid kernel.
Proof.
  unfold DispatchTable.applyManuallyBoxedKernel.
  destruct (DispatchTable.manuallyBoxedKernel_ d); reflexivity.
Qed.

Lemma size_t_incr_small n :
  0 <= n < 255 -> size_t_incr n = n + 1.
Proof.
  intros H. unfold size_t_incr, size_t_modulus.
  apply Z.mod_small. change (2 ^ 64) with 18446744073709551616. lia.
Qed.

Lemma size_t_decr_small n :
  0 < n <= 255 -> size_t_decr n = n - 1.
Proof.
  intros H. unfold size_t_decr, size_t_modulus.
  apply Z.mod_small. change (2 ^ 64) with 18446744073709551616. lia.
Qed.

(** ** The slot map *)

Section slot_map.

Variable NumTensorIds : nat.
Variable UndefinedTensorId : TensorTypeId.
Implicit Types (tb : KernelFunctionTable.t) (k j : TensorTypeId).
Implicit Types (slot kernel : KernelFunction.t).

Lemma make_sized : sized NumTensorIds (KernelFunctionTable.make NumTensorIds).
Proof. apply length_replicate. Qed.

Lemma make_counted : counted (KernelFunctionTable.make NumTensorIds).
Proof.
  unfold counted, KernelFunctionTable.size, KernelFunctionTable.make.
  proj. rewrite validCount_replicate_empty. reflexivity.
Qed.

Lemma slot_in_range tb k :
  sized NumTensorIds tb -> (k < NumTensorIds)%nat ->
  exists slot, KernelFunctionTable.kernels_ tb !! k = Some slot.
Proof.
  unfold sized. intros <- Hk.
  destruct (lookup_lt_is_Some_2 _ _ Hk) as [slot E]. eauto.
Qed.

Lemma setKernel_sentinel kernel tb :
  KernelFunctionTable.setKernel UndefinedTensorId UndefinedTensorId kernel tb
  = AssertFailed tb.
Proof. unfold KernelFunctionTable.setKernel. case_decide; congruence. Qed.

Lemma setKernel_at k kernel tb slot :
  k <> UndefinedTensorId ->
  KernelFunctionTable.kernels_ tb !! k = Some slot ->
  KernelFunctionTable.setKernel UndefinedTensorId k kernel tb
  = if KernelFunction.isValid slot then
      Returned KernelFunctionTable.OVERWROTE_EXISTING_KERNEL
        (KernelFunctionTable.mk
           (<[k := kernel]> (KernelFunctionTable.kernels_ tb))
           (KernelFunctionTable.kernelCount_ tb))
    else
      Returned KernelFunctionTable.ADDED_NEW_KERNEL
        (KernelFunctionTable.mk
           (<[k := kernel]> (KernelFunctionTable.kernels_ tb))
           (size_t_incr (KernelFunctionTable.kernelCount_ tb))).
Proof.
  intros Hk E. unfold KernelFunctionTable.setKernel.
  case_decide; [congruence|]. rewrite E. reflexivity.
Qed.

Lemma setKernel_inv k kernel tb r tb' :
  KernelFunctionTable.setKernel UndefinedTensorId k kernel tb = Returned r tb' ->
  k <> UndefinedTensorId
  /\ exists slot,
       KernelFunctionTable.kernels_ tb !! k = Some slot
       /\ r = (if KernelFunction.isValid slot
               then KernelFunctionTable.OVERWROTE_EXISTING_KERNEL
               else KernelFunctionTable.ADDED_NEW_KERNEL)
       /\ tb' = KernelFunctionTable.mk
                  (<[k := kernel]> (KernelFunctionTable.kernels_ tb))
                  (if KernelFunction.isValid slot
                   then KernelFunctionTable.kernelCount_ tb
                   else size_t_incr (KernelFunctionTable.kernelCount_ tb)).
Proof.
  unfold KernelFunctionTable.setKernel. case_decide; [discriminate|].
  destruct (KernelFunctionTable.kernels_ tb !! k) as [slot|] eqn:E;
    [|discriminate].
  intros Hr. split; [assumption|]. exists slot. split; [reflexivity|].
  destruct (KernelFunction.isValid slot); injection Hr as <- <-; auto.
Qed.

Lemma setKernel_failed_inv k kernel tb tb' :
  KernelFunctionTable.setKernel UndefinedTensorId k kernel tb = AssertFailed tb' ->
  k = UndefinedTensorId /\ tb' = tb.
Proof.
  unfold KernelFunctionTable.setKernel. case_decide.
  - intros Hr. injection Hr as <-. auto.
  - destruct (KernelFunctionTable.kernels_ tb !! k) as [slot|];
      [destruct (KernelFunction.isValid slot)|]; discriminate.
Qed.

Lemma removeKernelIfExists_at k tb slot :
  KernelFunctionTable.kernels_ tb !! k = Some slot ->
  KernelFunctionTable.removeKernelIfExists k tb
  = if KernelFunction.isValid slot then
      Returned KernelFunctionTable.REMOVED_KERNEL
        (KernelFunctionTable.mk
           (<[k := KernelFunction.empty]> (KernelFunctionTable.kernels_ tb))
           (size_t_decr (KernelFunctionTable.kernelCount_ tb)))
    else Returned KernelFunctionTable.KERNEL_DIDNT_EXIST tb.
Proof. intros E. unfold KernelFunctionTable.removeKernelIfExists. rewrite E. reflexivity. Qed.

Lemma removeKernelIfExists_never_asserts k tb tb' :
  KernelFunctionTable.removeKernelIfExists k tb <> AssertFailed tb'.
Proof.
  unfold KernelFunctionTable.removeKernelIfExists.
  destruct (KernelFunctionTable.kernels_ tb !! k) as [slot|];
    [destruct (KernelFunction.isValid slot)|]; discriminate.
Qed.

Lemma removeKernelIfExists_inv k tb r tb' :
  KernelFunctionTable.removeKernelIfExists k tb = Returned r tb' ->
  exists slot,
    KernelFunctionTable.kernels_ tb !! k = Some slot
    /\ (if KernelFunction.isValid slot
        then r = KernelFunctionTable.REMOVED_KERNEL
             /\ tb' = KernelFunctionTable.mk
                        (<[k := KernelFunction.empty]> (KernelFunctionTable.kernels_ tb))
                        (size_t_decr (KernelFunctionTable.kernelCount_ tb))
        else r = KernelFunctionTable.KERNEL_DIDNT_EXIST /\ tb' = tb).
Proof.
  unfold KernelFunctionTable.removeKernelIfExists.
  destruct (KernelFunctionTable.kernels_ tb !! k) as [slot|] eqn:E;
    [|discriminate].
  intros H. exists slot. split; [reflexivity|].
  destruct (KernelFunction.isValid slot); injection H as <- <-; auto.
Qed.

Lemma setKernel_preserves k kernel tb r tb' :
  (NumTensorIds <= 255)%nat ->
  sized NumTensorIds tb -> counted tb ->
  KernelFunction.isValid kernel = true ->
  KernelFunctionTable.setKernel UndefinedTensorId k kernel tb = Returned r tb' ->
  sized NumTensorIds tb' /\ counted tb'.
Proof.
  intros HN Hs Hc Hv H.
  apply setKernel_inv in H as (_ & slot & E & _ & ->).
  split.
  - unfold sized in *. proj. rewrite length_insert. exact Hs.
  - unfold counted, KernelFunctionTable.size in *. proj.
    rewrite (validCount_insert _ _ _ _ E). unfold weight. rewrite Hv.
    destruct (KernelFunction.isValid slot) eqn:Es; [lia|].
    pose proof (validCount_lt _ _ _ E Es). unfold sized in Hs.
    rewrite size_t_incr_small; lia.
Qed.

Lemma removeKernelIfExists_preserves k tb r tb' :
  (NumTensorIds <= 255)%nat ->
  sized NumTensorIds tb -> counted tb ->
  KernelFunctionTable.removeKernelIfExists k tb = Returned r tb' ->
  sized NumTensorIds tb' /\ counted tb'.
Proof.
  intros HN Hs Hc H.
  apply removeKernelIfExists_inv in H as (slot & E & H).
  destruct (KernelFunction.isValid slot) eqn:Es; destruct H as [_ ->];
    [|auto].
  split.
  - unfold sized in *. proj. rewrite length_insert. exact Hs.
  - unfold counted, KernelFunctionTable.size in *. proj.
    rewrite (validCount_insert _ _ _ _ E). unfold weight.
    rewrite Es, isValid_empty.
    pose proof (validCount_pos _ _ _ E Es).
    pose proof (validCount_le (KernelFunctionTable.kernels_ tb)).
    unfold sized in Hs. rewrite size_t_decr_small; lia.
Qed.

End slot_map.

(** ** The sweep of [setManuallyBoxedKernel_] *)

Section sweep.

Variable func : KernelFunction.InternalBoxedKernelFunction.
Implicit Types (ks : KernelFunctionTable.t) (iters : list TensorTypeId).

Lemma setManuallyBoxedKernel_idem kernel :
  KernelFunction.setManuallyBoxedKernel_ func
    (KernelFunction.setManuallyBoxedKernel_ func kernel)
  = KernelFunction.setManuallyBoxedKernel_ func kernel.
Proof. reflexivity. Qed.

Lemma sweep_preserves iters : forall ks ks',
  DispatchTable.setManuallyBoxedKernel_loop func iters ks = Some ks' ->
  length (KernelFunctionTable.kernels_ ks')
  = length (KernelFunctionTable.kernels_ ks)
  /\ KernelFunctionTable.kernelCount_ ks' = KernelFunctionTable.kernelCount_ ks
  /\ validCount (KernelFunctionTable.kernels_ ks')
     = validCount (KernelFunctionTable.kernels_ ks).
Proof.
  induction iters as [|iter iters IH]; intros ks ks' H; cbn in H.
  - injection H as <-. auto.
  - unfold KernelFunctionTable.at_ in H.
    destruct (KernelFunctionTable.kernels_ ks !! iter) as [kernel|] eqn:E;
      [|discriminate].
    destruct (IH _ _ H) as (Hl & Hc & Hv).
    destruct (KernelFunction.isValid kernel) eqn:Ek; [|auto].
    unfold KernelFunctionTable.assign_at in Hl, Hc, Hv. proj.
    rewrite Hl, Hc, Hv, length_insert. repeat split.
    apply Nat2Z.inj. rewrite (validCount_insert _ _ _ _ E). unfold weight.
    rewrite isValid_setManuallyBoxedKernel_, Ek. lia.
Qed.

Lemma sweep_returns iters : forall ks,
  Forall (fun iter => (iter < length (KernelFunctionTable.kernels_ ks))%nat) iters ->
  is_Some (DispatchTable.setManuallyBoxedKernel_loop func iters ks).
Proof.
  induction iters as [|iter iters IH]; intros ks Hin; cbn.
  - eauto.
  - apply Forall_cons in Hin as [Hi Hin]. unfold KernelFunctionTable.at_.
    destruct (lookup_lt_is_Some_2 _ _ Hi) as [kernel E]. rewrite E.
    apply IH. destruct (KernelFunction.isValid kernel); [|exact Hin].
    unfold KernelFunctionTable.assign_at. proj.
    rewrite length_insert. exact Hin.
Qed.

(** What the sweep leaves in each slot. *)
Lemma sweep_slot iters : forall ks ks' j slot,
  DispatchTable.setManuallyBoxedKernel_loop func iters ks = Some ks' ->
  KernelFunctionTable.kernels_ ks !! j = Some slot ->
  KernelFunctionTable.kernels_ ks' !! j
  = Some (if bool_decide (j ∈ iters) && KernelFunction.isValid slot
          then KernelFunction.setManuallyBoxedKernel_ func slot
          else slot).
Proof.
  induction iters as [|iter iters IH]; intros ks ks' j slot H Ej; cbn in H.
  - injection H as <-. rewrite Ej. reflexivity.
  - unfold KernelFunctionTable.at_ in H.
    destruct (KernelFunctionTable.kernels_ ks !! iter) as [kernel|] eqn:E;
      [|discriminate].
    destruct (decide (j = iter)) as [->|Hne].
    + assert (kernel = slot) as -> by congruence.
      rewrite (bool_decide_eq_true_2 _ (list_elem_of_here iter iters)).
      destruct (KernelFunction.isValid slot) eqn:Ek.
      * erewrite IH; [|exact H|].
        2:{ unfold KernelFunctionTable.assign_at. proj.
            apply list_lookup_insert_eq. eapply lookup_lt_Some, E. }
        rewrite isValid_setManuallyBoxedKernel_, Ek, setManuallyBoxedKernel_idem.
        destruct (bool_decide (iter ∈ iters)); reflexivity.
      * erewrite IH; [|exact H|exact E]. rewrite Ek, andb_false_r. reflexivity.
    + assert (bool_decide (j ∈ iter :: iters) = bool_decide (j ∈ iters)) as ->.
      { apply bool_decide_ext. rewrite elem_of_cons. tauto. }
      eapply IH; [exact H|].
      destruct (KernelFunction.isValid kernel); [|exact Ej].
      unfold KernelFunctionTable.assign_at. proj.
      rewrite list_lookup_insert_ne by congruence. exact Ej.
Qed.

End sweep.

(** ** The table: what each call leaves behind *)

Section table.

Variable NumTensorIds : nat.
Variable UndefinedTensorId : TensorTypeId.
Implicit Types (d : DispatchTable.t) (k j : TensorTypeId).
Implicit Types (slot kernel : KernelFunction.t).

Lemma with_kernels_id d : DispatchTable.with_kernels (DispatchTable.kernels_ d) d = d.
Proof. destruct d. reflexivity. Qed.

Lemma occupied_lookup ks k :
  occupied ks k = true <->
  exists slot, KernelFunctionTable.kernels_ ks !! k = Some slot
               /\ KernelFunction.isValid slot = true.
Proof.
  unfold occupied, KernelFunctionTable.at_.
  destruct (KernelFunctionTable.kernels_ ks !! k) as [slot|]; split.
  - eauto.
  - intros (? & [= <-] & ?). assumption.
  - discriminate.
  - intros (? & [=] & _).
Qed.

Lemma occupied_in_range ks k :
  occupied ks k = true -> (k < length (KernelFunctionTable.kernels_ ks))%nat.
Proof.
  rewrite occupied_lookup. intros (slot & E & _). eapply lookup_lt_Some, E.
Qed.

Lemma setKernel_sentinel_fatal kernel d :
  DispatchTable.setKernel UndefinedTensorId UndefinedTensorId kernel d
  = AssertFailed d.
Proof.
  unfold DispatchTable.setKernel. rewrite setKernel_sentinel, with_kernels_id.
  reflexivity.
Qed.

Lemma removeKernelIfExists_no_assert k d d' :
  DispatchTable.removeKernelIfExists k d <> AssertFailed d'.
Proof.
  unfold DispatchTable.removeKernelIfExists.
  destruct (KernelFunctionTable.removeKernelIfExists k (DispatchTable.kernels_ d))
    as [r ks|ks|] eqn:E; try discriminate.
  exfalso. eapply removeKernelIfExists_never_asserts, E.
Qed.

(** [setKernel] on a key inside the array other than the sentinel. *)
Lemma setKernel_returns k kernel d slot :
  k <> UndefinedTensorId ->
  KernelFunctionTable.kernels_ (DispatchTable.kernels_ d) !! k = Some slot ->
  DispatchTable.setKernel UndefinedTensorId k kernel d
  = Returned
      (if KernelFunction.isValid slot
       then [DispatchTable.WarnOverwroteKernel (DispatchTable.operatorName_ d) k]
       else [])
      (DispatchTable.with_kernels
         (KernelFunctionTable.mk
            (<[k := DispatchTable.applyManuallyBoxedKernel d kernel]>
               (KernelFunctionTable.kernels_ (DispatchTable.kernels_ d)))
            (if KernelFunction.isValid slot
             then KernelFunctionTable.kernelCount_ (DispatchTable.kernels_ d)
             else size_t_incr
                    (KernelFunctionTable.kernelCount_ (DispatchTable.kernels_ d))))
         d).
Proof.
  intros Hk E. unfold DispatchTable.setKernel.
  rewrite (setKernel_at _ _ _ _ _ Hk E).
  destruct (KernelFunction.isValid slot); reflexivity.
Qed.

(** [removeKernelIfExists] on a key inside the array. *)
Lemma removeKernelIfExists_returns k d slot :
  KernelFunctionTable.kernels_ (DispatchTable.kernels_ d) !! k = Some slot ->
  DispatchTable.removeKernelIfExists k d
  = Returned tt
      (if KernelFunction.isValid slot
       then DispatchTable.with_kernels
              (KernelFunctionTable.mk
                 (<[k := KernelFunction.empty]>
                    (KernelFunctionTable.kernels_ (DispatchTable.kernels_ d)))
                 (size_t_decr
                    (KernelFunctionTable.kernelCount_ (DispatchTable.kernels_ d))))
              d
       else d).
Proof.
  intros E. unfold DispatchTable.removeKernelIfExists.
  rewrite (removeKernelIfExists_at _ _ _ E).
  destruct (KernelFunction.isValid slot); [reflexivity|].
  rewrite with_kernels_id. reflexivity.
Qed.

(** [setManuallyBoxedKernel_] on a table without retrofit: it returns, and
    neither the retrofit field nor the catch-all slot has changed. *)
Lemma setManuallyBoxedKernel__returns func d :
  sized NumTensorIds (DispatchTable.kernels_ d) ->
  DispatchTable.manuallyBoxedKernel_ d = None ->
  exists ks,
    DispatchTable.setManuallyBoxedKernel_loop func (seq 0 NumTensorIds)
      (DispatchTable.kernels_ d) = Some ks
    /\ DispatchTable.setManuallyBoxedKernel_ NumTensorIds func d
       = Returned tt (DispatchTable.with_kernels ks d).
Proof.
  intros Hs Hm. unfold DispatchTable.setManuallyBoxedKernel_. rewrite Hm.
  destruct (sweep_returns func (seq 0 NumTensorIds) (DispatchTable.kernels_ d))
    as [ks E].
  - apply Forall_forall. intros iter Hin. apply elem_of_seq in Hin.
    unfold sized in Hs. lia.
  - exists ks. rewrite E. auto.
Qed.

End table.

(** ** The invariant of the tables of an operator *)

Section invariants.

Variable NumTensorIds : nat.
Variable UndefinedTensorId : TensorTypeId.
Hypothesis NumTensorIds_uint8 : (NumTensorIds <= 255)%nat.
Implicit Types (d : DispatchTable.t) (k j : TensorTypeId).

Lemma make_invariant schema :
  invariant NumTensorIds UndefinedTensorId (DispatchTable.make NumTensorIds schema).
Proof.
  unfold invariant, DispatchTable.make. proj.
  split; [apply make_sized|]. split; [apply make_counted|].
  unfold occupied, KernelFunctionTable.at_, KernelFunctionTable.make. proj.
  destruct (replicate NumTensorIds KernelFunction.empty !! UndefinedTensorId)
    as [slot|] eqn:E; [|reflexivity].
  apply lookup_replicate in E as [-> _]. reflexivity.
Qed.

Lemma occupied_insert_ne ks k j kernel count :
  j <> k ->
  occupied (KernelFunctionTable.mk
              (<[k := kernel]> (KernelFunctionTable.kernels_ ks)) count) j
  = occupied ks j.
Proof.
  intros Hne. unfold occupied, KernelFunctionTable.at_. proj.
  rewrite list_lookup_insert_ne by congruence. reflexivity.
Qed.

Lemma occupied_insert_empty ks k j count :
  occupied ks j = false ->
  occupied (KernelFunctionTable.mk
              (<[k := KernelFunction.empty]> (KernelFunctionTable.kernels_ ks))
              count) j
  = false.
Proof.
  intros Hj. destruct (decide (j = k)) as [->|Hne].
  - unfold occupied, KernelFunctionTable.at_. proj.
    destruct (<[k := KernelFunction.empty]> (KernelFunctionTable.kernels_ ks) !! k)
      as [slot|] eqn:E; [|reflexivity].
    apply list_lookup_insert_Some in E as [(_ & <- & _)|(? & _)];
      [reflexivity|congruence].
  - rewrite occupied_insert_ne by assumption. exact Hj.
Qed.

Lemma setKernel_invariant k kernel d ws d' :
  invariant NumTensorIds UndefinedTensorId d ->
  KernelFunction.isValid kernel = true ->
  DispatchTable.setKernel UndefinedTensorId k kernel d = Returned ws d' ->
  invariant NumTensorIds UndefinedTensorId d'.
Proof.
  intros (Hs & Hc & Hu) Hv. unfold DispatchTable.setKernel.
  destruct (KernelFunctionTable.setKernel UndefinedTensorId k
              (DispatchTable.applyManuallyBoxedKernel d kernel)
              (DispatchTable.kernels_ d)) as [r ks|ks|] eqn:E; try discriminate.
  intros [= _ <-]. unfold invariant. proj.
  destruct (setKernel_preserves NumTensorIds _ _ _ _ _ _ NumTensorIds_uint8 Hs Hc
              (eq_trans (isValid_applyManuallyBoxedKernel d kernel) Hv) E)
    as [Hs' Hc'].
  split; [exact Hs'|]. split; [exact Hc'|].
  apply setKernel_inv in E as (Hk & slot & _ & _ & ->).
  rewrite occupied_insert_ne by congruence. exact Hu.
Qed.

Lemma removeKernelIfExists_invariant k d d' :
  invariant NumTensorIds UndefinedTensorId d ->
  DispatchTable.removeKernelIfExists k d = Returned tt d' ->
  invariant NumTensorIds UndefinedTensorId d'.
Proof.
  intros (Hs & Hc & Hu). unfold DispatchTable.removeKernelIfExists.
  destruct (KernelFunctionTable.removeKernelIfExists k (DispatchTable.kernels_ d))
    as [r ks|ks|] eqn:E; try discriminate.
  intros [= <-]. unfold invariant. proj.
  destruct (removeKernelIfExists_preserves NumTensorIds _ _ _ _
              NumTensorIds_uint8 Hs Hc E) as [Hs' Hc'].
  split; [exact Hs'|]. split; [exact Hc'|].
  apply removeKernelIfExists_inv in E as (slot & _ & E).
  destruct (KernelFunction.isValid slot); destruct E as [_ ->];
    [apply occupied_insert_empty|]; exact Hu.
Qed.

Lemma setManuallyBoxedKernel__invariant func d d' :
  invariant NumTensorIds UndefinedTensorId d ->
  DispatchTable.setManuallyBoxedKernel_ NumTensorIds func d = Returned tt d' ->
  invariant NumTensorIds UndefinedTensorId d'.
Proof.
  intros (Hs & Hc & Hu). unfold DispatchTable.setManuallyBoxedKernel_.
  destruct (DispatchTable.manuallyBoxedKernel_ d); [discriminate|].
  destruct (DispatchTable.setManuallyBoxedKernel_loop func (seq 0 NumTensorIds)
              (DispatchTable.kernels_ d)) as [ks|] eqn:E; [|discriminate].
  intros [= <-]. unfold invariant. proj.
  destruct (sweep_preserves _ _ _ _ E) as (Hl & Hn & Hv).
  unfold sized, counted, KernelFunctionTable.size in *.
  split; [congruence|]. split; [congruence|].
  unfold occupied, KernelFunctionTable.at_ in *.
  destruct (KernelFunctionTable.kernels_ (DispatchTable.kernels_ d)
              !! UndefinedTensorId) as [slot|] eqn:Eu.
  - rewrite (sweep_slot _ _ _ _ _ _ E Eu), Hu, andb_false_r. exact Hu.
  - apply lookup_ge_None in Eu. rewrite <- Hl in Eu.
    apply lookup_ge_None in Eu. rewrite Eu. reflexivity.
Qed.

(** Every call leaves the invariant in place, whether it returns or throws. *)
Lemma exec_invariant op d d' :
  invariant NumTensorIds UndefinedTensorId d ->
  registers_kernels op ->
  exec NumTensorIds UndefinedTensorId op d = Some d' ->
  invariant NumTensorIds UndefinedTensorId d'.
Proof.
  intros Hinv Hop. destruct op as [k kernel|k|kernel| |func]; cbn [exec].
  - destruct (DispatchTable.setKernel UndefinedTensorId k kernel d)
      as [ws d1|d1|] eqn:E; cbn; intros [= <-].
    + eapply setKernel_invariant; eauto.
    + unfold DispatchTable.setKernel in E.
      destruct (KernelFunctionTable.setKernel UndefinedTensorId k
                  (DispatchTable.applyManuallyBoxedKernel d kernel)
                  (DispatchTable.kernels_ d)) as [r ks|ks|] eqn:Ek;
        try discriminate.
      apply setKernel_failed_inv in Ek as [_ ->].
      injection E as <-. rewrite with_kernels_id. exact Hinv.
  - destruct (DispatchTable.removeKernelIfExists k d) as [[] d1|d1|] eqn:E;
      cbn; intros [= <-].
    + eapply removeKernelIfExists_invariant; eauto.
    + exfalso. eapply removeKernelIfExists_no_assert, E.
  - cbn. intros [= <-]. exact Hinv.
  - unfold DispatchTable.removeCatchallKernel.
    destruct (KernelFunction.isValid (DispatchTable.catchallKernel_ d));
      cbn; intros [= <-]; exact Hinv.
  - destruct (DispatchTable.setManuallyBoxedKernel_ NumTensorIds func d)
      as [[] d1|d1|] eqn:E; cbn; intros [= <-].
    + eapply setManuallyBoxedKernel__invariant; eauto.
    + unfold DispatchTable.setManuallyBoxedKernel_ in E.
      destruct (DispatchTable.manuallyBoxedKernel_ d).
      * injection E as <-. exact Hinv.
      * destruct (DispatchTable.setManuallyBoxedKernel_loop func
                    (seq 0 NumTensorIds) (DispatchTable.kernels_ d));
          discriminate.
Qed.

(** A call whose key is inside the array leaves a table behind. *)
Lemma exec_defined op d :
  sized NumTensorIds (DispatchTable.kernels_ d) ->
  keys_in_range NumTensorIds op ->
  is_Some (exec NumTensorIds UndefinedTensorId op d).
Proof.
  intros Hs Hop. destruct op as [k kernel|k|kernel| |func]; cbn [exec].
  - destruct (slot_in_range NumTensorIds _ k Hs Hop) as [slot E].
    destruct (decide (k = UndefinedTensorId)) as [->|Hk].
    + rewrite setKernel_sentinel_fatal. cbn. eauto.
    + rewrite (setKernel_returns _ _ _ _ _ Hk E). cbn. eauto.
  - destruct (slot_in_range NumTensorIds _ k Hs Hop) as [slot E].
    rewrite (removeKernelIfExists_returns _ _ _ E). cbn. eauto.
  - cbn. eauto.
  - unfold DispatchTable.removeCatchallKernel.
    destruct (KernelFunction.isValid (DispatchTable.catchallKernel_ d));
      cbn; eauto.
  - destruct (DispatchTable.manuallyBoxedKernel_ d) as [g|] eqn:Em.
    + unfold DispatchTable.setManuallyBoxedKernel_. rewrite Em. cbn. eauto.
    + destruct (setManuallyBoxedKernel__returns NumTensorIds func d Hs Em)
        as (ks & _ & ->). cbn. eauto.
Qed.

Lemma reachable_invariant schema d :
  reachable NumTensorIds UndefinedTensorId schema d ->
  invariant NumTensorIds UndefinedTensorId d.
Proof.
  induction 1 as [|op d d' _ IH Hop E].
  - apply make_invariant.
  - eapply exec_invariant; eauto.
Qed.

End invariants.

Lemma run_reachable N undef schema ops : forall d d',
  reachable N undef schema d ->
  Forall registers_kernels ops ->
  run N undef ops d = Some d' ->
  reachable N undef schema d'.
Proof.
  induction ops as [|op ops IH]; intros d d' Hd Hops; cbn.
  - intros [= <-]. exact Hd.
  - apply Forall_cons in Hops as [Hop Hops].
    destruct (exec N undef op d) as [d1|] eqn:E; [|discriminate].
    apply IH; [|exact Hops]. eapply reachable_exec; eauto.
Qed.

Lemma populated_reachable :
  reachable Sample.NumTensorIds Sample.UndefinedTensorId Sample.add_schema
    Sample.populated.
Proof.
  eapply run_reachable with
    (ops := [OpSetKernel 1 Sample.f1; OpSetKernel 4 Sample.f2;
             OpSetCatchallKernel Sample.f3]);
    [apply reachable_make| |reflexivity].
  repeat constructor.
Qed.

(** ** Occupied keys *)

Lemma filter_ext_elem {A} (P Q : A -> Prop)
    `{!forall x, Decision (P x)} `{!forall x, Decision (Q x)} (l : list A) :
  (forall x, x ∈ l -> P x <-> Q x) -> filter P l = filter Q l.
Proof.
  induction l as [|x l IH]; intros Hext; [reflexivity|].
  rewrite !filter_cons.
  rewrite IH by (intros y Hy; apply Hext; right; exact Hy).
  pose proof (Hext x (list_elem_of_here x l)) as Hx.
  repeat case_decide; tauto.
Qed.

(** The valid slots of an array, counted by their indices from [start]. *)
Lemma validCount_indices (slots : list KernelFunction.t) : forall start,
  length (filter (fun k => from_option KernelFunction.isValid false
                             (slots !! (k - start)%nat) = true)
            (seq start (length slots)))
  = validCount slots.
Proof.
  induction slots as [|slot slots IH]; intros start; [reflexivity|].
  cbn [length seq]. rewrite filter_cons.
  replace (start - start)%nat with 0%nat by lia. cbn [lookup list_lookup from_option].
  apply Nat2Z.inj. rewrite validCount_cons, <- (IH (S start)). unfold weight.
  rewrite (filter_ext_elem
             (fun k => from_option KernelFunction.isValid false
                         ((slot :: slots) !! (k - start)%nat) = true)
             (fun k => from_option KernelFunction.isValid false
                         (slots !! (k - S start)%nat) = true)).
  - destruct (KernelFunction.isValid slot); case_decide; try congruence;
      cbn [length]; lia.
  - intros k Hk. apply elem_of_seq in Hk.
    replace (k - start)%nat with (S (k - S start)) by lia. reflexivity.
Qed.

Lemma occupiedKeys_length N ks :
  sized N ks ->
  length (occupiedKeys N ks) = validCount (KernelFunctionTable.kernels_ ks).
Proof.
  unfold sized. intros <-.
  rewrite <- (validCount_indices (KernelFunctionTable.kernels_ ks) 0).
  unfold occupiedKeys. f_equal. apply filter_ext_elem. intros k _.
  unfold occupied, KernelFunctionTable.at_. rewrite Nat.sub_0_r.
  destruct (KernelFunctionTable.kernels_ ks !! k); reflexivity.
Qed.

Lemma occupiedKeys_elem N ks k :
  sized N ks -> k ∈ occupiedKeys N ks <-> occupied ks k = true.
Proof.
  intros Hs. unfold occupiedKeys. rewrite list_elem_of_filter, elem_of_seq.
  split; [tauto|]. intros Ho. split; [exact Ho|].
  apply occupied_in_range in Ho. unfold sized in Hs. lia.
Qed.

Lemma seq_sorted n : forall start, StronglySorted lt (seq start n).
Proof.
  induction n as [|n IH]; intros start; cbn [seq]; constructor.
  - apply IH.
  - apply Forall_forall. intros k Hk. apply elem_of_seq in Hk. lia.
Qed.

Lemma filter_sorted {A} (R : A -> A -> Prop) (P : A -> Prop)
    `{!forall x, Decision (P x)} (l : list A) :
  StronglySorted R l -> StronglySorted R (filter P l).
Proof.
  induction 1 as [|x l Hl IH Hx]; [constructor|].
  rewrite filter_cons. case_decide; [|exact IH].
  constructor; [exact IH|].
  apply Forall_forall. intros y Hy. apply list_elem_of_filter in Hy as [_ Hy].
  rewrite Forall_forall in Hx. apply Hx, Hy.
Qed.

Lemma occupiedKeys_sorted N ks : StronglySorted lt (occupiedKeys N ks).
Proof. apply filter_sorted, seq_sorted. Qed.

(** ** Calls with any arguments *)

Lemma make_unoccupied N k : occupied (KernelFunctionTable.make N) k = false.
Proof.
  unfold occupied, KernelFunctionTable.at_, KernelFunctionTable.make. proj.
  destruct (replicate N KernelFunction.empty !! k) as [slot|] eqn:E;
    [|reflexivity].
  apply lookup_replicate in E as [-> _]. reflexivity.
Qed.

Lemma removeKernelIfExists_sized N k tb r tb' :
  sized N tb ->
  KernelFunctionTable.removeKernelIfExists k tb = Returned r tb' ->
  sized N tb'.
Proof.
  intros Hs (slot & _ & Hr)%removeKernelIfExists_inv.
  destruct (KernelFunction.isValid slot); destruct Hr as [_ ->]; [|exact Hs].
  unfold sized in *. proj. rewrite length_insert. exact Hs.
Qed.

Lemma removeKernelIfExists_occupied k tb r tb' j :
  KernelFunctionTable.removeKernelIfExists k tb = Returned r tb' ->
  occupied tb' j = occupied tb j && negb (bool_decide (j = k)).
Proof.
  intros (slot & E & Hr)%removeKernelIfExists_inv.
  destruct (decide (j = k)) as [->|Hne].
  - rewrite bool_decide_eq_true_2, andb_false_r by reflexivity.
    destruct (KernelFunction.isValid slot) eqn:Ev; destruct Hr as [_ ->].
    + unfold occupied, KernelFunctionTable.at_. proj.
      rewrite list_lookup_insert_eq by (eapply lookup_lt_Some, E). reflexivity.
    + unfold occupied, KernelFunctionTable.at_. rewrite E. exact Ev.
  - rewrite bool_decide_eq_false_2, andb_true_r by exact Hne.
    destruct (KernelFunction.isValid slot); destruct Hr as [_ ->];
      [|reflexivity].
    apply occupied_insert_ne, Hne.
Qed.

(** Whatever the arguments of a call, the array keeps its size and the slot
    of the undefined key stays empty. *)
Lemma exec_sentinel_free N undef op d d' :
  sized N (DispatchTable.kernels_ d) ->
  occupied (DispatchTable.kernels_ d) undef = false ->
  exec N undef op d = Some d' ->
  sized N (DispatchTable.kernels_ d')
  /\ occupied (DispatchTable.kernels_ d') undef = false.
Proof.
  intros Hs Ho. destruct op as [k kernel|k|kernel| |func]; cbn [exec].
  - unfold DispatchTable.setKernel.
    destruct (KernelFunctionTable.setKernel undef k
                (DispatchTable.applyManuallyBoxedKernel d kernel)
                (DispatchTable.kernels_ d)) as [r ks|ks|] eqn:E;
      cbn; intros [= <-]; proj.
    + apply setKernel_inv in E as (Hk & old & _ & _ & ->). split.
      * unfold sized in *. proj. rewrite length_insert. exact Hs.
      * rewrite occupied_insert_ne by congruence. exact Ho.
    + apply setKernel_failed_inv in E as [_ ->]. auto.
  - unfold DispatchTable.removeKernelIfExists.
    destruct (KernelFunctionTable.removeKernelIfExists k (DispatchTable.kernels_ d))
      as [r ks|ks|] eqn:E; cbn; intros [= <-]; proj.
    + split; [eapply removeKernelIfExists_sized; eauto|].
      rewrite (removeKernelIfExists_occupied _ _ _ _ undef E), Ho. reflexivity.
    + exfalso. eapply removeKernelIfExists_never_asserts, E.
  - cbn. intros [= <-]. auto.
  - unfold DispatchTable.removeCatchallKernel.
    destruct (KernelFunction.isValid (DispatchTable.catchallKernel_ d));
      cbn; intros [= <-]; auto.
  - unfold DispatchTable.setManuallyBoxedKernel_.
    destruct (DispatchTable.manuallyBoxedKernel_ d);
      [cbn; intros [= <-]; auto|].
    destruct (DispatchTable.setManuallyBoxedKernel_loop func (seq 0 N)
                (DispatchTable.kernels_ d)) as [ks|] eqn:E;
      cbn; [|discriminate].
    intros [= <-]. proj.
    destruct (sweep_preserves _ _ _ _ E) as (Hl & _ & _).
    split; [unfold sized in *; congruence|].
    unfold occupied, KernelFunctionTable.at_ in *.
    destruct (KernelFunctionTable.kernels_ (DispatchTable.kernels_ d) !! undef)
      as [slot|] eqn:Eu.
    + rewrite (sweep_slot _ _ _ _ _ _ E Eu), Ho, andb_false_r. exact Ho.
    + apply lookup_ge_None in Eu. rewrite <- Hl in Eu.
      apply lookup_ge_None in Eu. rewrite Eu. reflexivity.
Qed.

Lemma run_sentinel_free N undef ops : forall d d',
  sized N (DispatchTable.kernels_ d) ->
  occupied (DispatchTable.kernels_ d) undef = false ->
  run N undef ops d = Some d' ->
  sized N (DispatchTable.kernels_ d')
  /\ occupied (DispatchTable.kernels_ d') undef = false.
Proof.
  induction ops as [|op ops IH]; intros d d' Hs Ho; cbn [run].
  - intros [= <-]. auto.
  - destruct (exec N undef op d) as [d1|] eqn:E; [|discriminate].
    destruct (exec_sentinel_free _ _ _ _ _ Hs Ho E) as [Hs1 Ho1].
    apply IH; assumption.
Qed.

(** Every table built from the constructed one by calls of the mutators. *)
Lemma run_make_sentinel_free N undef schema ops d :
  run N undef ops (DispatchTable.make N schema) = Some d ->
  sized N (DispatchTable.kernels_ d)
  /\ occupied (DispatchTable.kernels_ d) undef = false.
Proof.
  apply run_sentinel_free.
  - apply make_sized.
  - apply make_unoccupied.
Qed.

(** ** The properties of the table *)

(** The default-constructed [KernelFunction] is the content of an empty
    slot, not a kernel: [setKernel] stores it as it is and counts it as a new
    kernel, and [lookup] finds the slot empty.  The properties of
    registration below are about kernels, the valid [KernelFunction]s. *)
Remark setKernel_of_empty_KernelFunction :
  exists ws d',
    DispatchTable.setKernel Sample.UndefinedTensorId 2 KernelFunction.empty
      Sample.fresh = Returned ws d'
    /\ KernelFunctionTable.size (DispatchTable.kernels_ d') = 1
    /\ DispatchTable.lookup 2 d' = Some None.
Proof. repeat eexists. Qed.

(** C5, as stated, fails: [setKernel] handed the default-constructed
    [KernelFunction] at the empty slot of key 2 of the constructed table
    returns and counts a new kernel, so that [size()] is 1 while no keyed
    slot is occupied. *)
Lemma setKernel_of_invalid_kernel_miscounts :
  exists ws d',
    DispatchTable.setKernel Sample.UndefinedTensorId 2 KernelFunction.empty
      Sample.fresh = Returned ws d'
    /\ KernelFunctionTable.size (DispatchTable.kernels_ d') = 1
    /\ occupiedKeys Sample.NumTensorIds (DispatchTable.kernels_ d') = [].
Proof. repeat eexists. Qed.

(** C5, as amended: in every table of an operator, that is the constructed
    table and every table left behind by [setKernel] called with a valid
    [KernelFunction], [removeKernelIfExists], [setCatchallKernel],
    [removeCatchallKernel] and [setManuallyBoxedKernel_] (the retrofit
    installer), [size()] equals the number of occupied keyed slots, whatever
    the catch-all slot holds; each of the five operations so called leaves a
    table with the same equality, and leaves one whenever its key is inside
    the array. *)
Theorem occupancy_counter_invariant
    (N : nat) (undef : TensorTypeId) (schema : DispatchTable.FunctionSchema)
    (d : DispatchTable.t) :
  (N <= 255)%nat ->
  reachable N undef schema d ->
  KernelFunctionTable.size (DispatchTable.kernels_ d)
  = Z.of_nat (length (occupiedKeys N (DispatchTable.kernels_ d)))
  /\ (forall op d',
        registers_kernels op ->
        exec N undef op d = Some d' ->
        KernelFunctionTable.size (DispatchTable.kernels_ d')
        = Z.of_nat (length (occupiedKeys N (DispatchTable.kernels_ d'))))
  /\ (forall op, keys_in_range N op -> is_Some (exec N undef op d)).
Proof.
  intros HN Hd.
  assert (forall d0, reachable N undef schema d0 ->
            KernelFunctionTable.size (DispatchTable.kernels_ d0)
            = Z.of_nat (length (occupiedKeys N (DispatchTable.kernels_ d0))))
    as Hsize.
  { intros d0 Hd0.
    destruct (reachable_invariant N undef HN schema d0 Hd0) as (Hs & Hc & _).
    rewrite (occupiedKeys_length _ _ Hs). exact Hc. }
  split; [apply Hsize, Hd|]. split.
  - intros op d' Hop E. apply Hsize. eapply reachable_exec; eauto.
  - intros op Hop. apply exec_defined; [|exact Hop].
    apply (reachable_invariant N undef HN schema d Hd).
Qed.

Lemma occupancy_counter_invariant_witness :
  KernelFunctionTable.size (DispatchTable.kernels_ Sample.populated)
  = Z.of_nat (length (occupiedKeys Sample.NumTensorIds
                        (DispatchTable.kernels_ Sample.populated)))
  /\ (forall op d',
        registers_kernels op ->
        exec Sample.NumTensorIds Sample.UndefinedTensorId op Sample.populated
        = Some d' ->
        KernelFunctionTable.size (DispatchTable.kernels_ d')
        = Z.of_nat (length (occupiedKeys Sample.NumTensorIds
                              (DispatchTable.kernels_ d'))))
  /\ (forall op,
        keys_in_range Sample.NumTensorIds op ->
        is_Some (exec Sample.NumTensorIds Sample.UndefinedTensorId op
                   Sample.populated)).
Proof.
  apply (occupancy_counter_invariant Sample.NumTensorIds
           Sample.UndefinedTensorId Sample.add_schema Sample.populated).
  - unfold Sample.NumTensorIds. lia.
  - apply populated_reachable.
Defined.

(** C9: in every table state, [isEmpty()] is true if and only if [size()] is
    zero and no catch-all kernel is installed. *)
Theorem isEmpty_iff (d : DispatchTable.t) :
  DispatchTable.isEmpty d = true
  <-> KernelFunctionTable.size (DispatchTable.kernels_ d) = 0
      /\ DispatchTable.lookupCatchallKernel d = None.
Proof.
  unfold DispatchTable.isEmpty, DispatchTable.lookupCatchallKernel.
  rewrite andb_true_iff, Z.eqb_eq.
  destruct (KernelFunction.isValid (DispatchTable.catchallKernel_ d)); cbn;
    split; intros [H1 H2]; try discriminate; auto.
Qed.

(** C8: [removeCatchallKernel] fails its assertion, leaving the table as it
    is, when no catch-all kernel is installed; when one is installed it
    returns with the catch-all slot cleared, so that [lookupCatchallKernel]
    then reports absence, and with the keyed slots as they were. *)
Theorem removeCatchallKernel_spec (d : DispatchTable.t) :
  match DispatchTable.lookupCatchallKernel d with
  | None => DispatchTable.removeCatchallKernel d = AssertFailed d
  | Some _ =>
      exists d',
        DispatchTable.removeCatchallKernel d = Returned tt d'
        /\ DispatchTable.catchallKernel_ d' = KernelFunction.empty
        /\ DispatchTable.lookupCatchallKernel d' = None
        /\ DispatchTable.kernels_ d' = DispatchTable.kernels_ d
  end.
Proof.
  unfold DispatchTable.lookupCatchallKernel, DispatchTable.removeCatchallKernel.
  destruct (KernelFunction.isValid (DispatchTable.catchallKernel_ d)); cbn.
  - eexists. split; [reflexivity|]. auto.
  - reflexivity.
Qed.

(** C3, as amended: [setKernel] rejects the undefined sentinel key, the call
    fails its assertion and leaves the table unchanged.
    [removeKernelIfExists] has no such check and never fails an assertion;
    given the sentinel, a key inside the array, on a table built from the
    constructed one by the operations of the table, whatever their
    arguments, it finds the slot empty, reports that the kernel did not
    exist and leaves the table unchanged. *)
Theorem sentinel_key_policy
    (N : nat) (undef : TensorTypeId) (schema : DispatchTable.FunctionSchema)
    (ops : list Op) (kernel : KernelFunction.t) (d : DispatchTable.t) :
  (undef < N)%nat ->
  run N undef ops (DispatchTable.make N schema) = Some d ->
  DispatchTable.setKernel undef undef kernel d = AssertFailed d
  /\ (forall d', DispatchTable.removeKernelIfExists undef d <> AssertFailed d')
  /\ KernelFunctionTable.removeKernelIfExists undef (DispatchTable.kernels_ d)
     = Returned KernelFunctionTable.KERNEL_DIDNT_EXIST (DispatchTable.kernels_ d)
  /\ DispatchTable.removeKernelIfExists undef d = Returned tt d.
Proof.
  intros Hu Hrun.
  destruct (run_make_sentinel_free N undef schema ops d Hrun) as [Hs Ho].
  destruct (slot_in_range N _ undef Hs Hu) as [slot E].
  assert (KernelFunction.isValid slot = false) as Ev.
  { unfold occupied, KernelFunctionTable.at_ in Ho. rewrite E in Ho. exact Ho. }
  split; [apply setKernel_sentinel_fatal|].
  split; [intros d'; apply removeKernelIfExists_no_assert|].
  rewrite (removeKernelIfExists_at _ _ _ E), (removeKernelIfExists_returns _ _ _ E).
  rewrite Ev. auto.
Qed.

Lemma sentinel_key_policy_witness :
  DispatchTable.setKernel Sample.UndefinedTensorId Sample.UndefinedTensorId
    Sample.f1 Sample.populated
  = AssertFailed Sample.populated
  /\ (forall d',
        DispatchTable.removeKernelIfExists Sample.UndefinedTensorId
          Sample.populated <> AssertFailed d')
  /\ KernelFunctionTable.removeKernelIfExists Sample.UndefinedTensorId
       (DispatchTable.kernels_ Sample.populated)
     = Returned KernelFunctionTable.KERNEL_DIDNT_EXIST
         (DispatchTable.kernels_ Sample.populated)
  /\ DispatchTable.removeKernelIfExists Sample.UndefinedTensorId
       Sample.populated
     = Returned tt Sample.populated.
Proof.
  apply (sentinel_key_policy Sample.NumTensorIds Sample.UndefinedTensorId
           Sample.add_schema
           [OpSetKernel 1 Sample.f1; OpSetKernel 4 Sample.f2;
            OpSetCatchallKernel Sample.f3]
           Sample.f1 Sample.populated).
  - unfold Sample.NumTensorIds, Sample.UndefinedTensorId. lia.
  - reflexivity.
Defined.

(** C3, as stated, fails: [removeKernelIfExists] given the undefined sentinel
    key returns normally, at the slot map and at the table. *)
Lemma removeKernelIfExists_accepts_sentinel :
  KernelFunctionTable.removeKernelIfExists Sample.UndefinedTensorId
    (DispatchTable.kernels_ Sample.populated)
  = Returned KernelFunctionTable.KERNEL_DIDNT_EXIST
      (DispatchTable.kernels_ Sample.populated)
  /\ DispatchTable.removeKernelIfExists Sample.UndefinedTensorId
       Sample.populated
     = Returned tt Sample.populated.
Proof. split; reflexivity. Qed.

(** Repeated [setKernel] at one key of an occupied slot: every call reports
    an overwrite, and the slot holds the last kernel. *)
Lemma setKernels_overwrite undef k kernels : forall tb slot,
  k <> undef ->
  KernelFunctionTable.kernels_ tb !! k = Some slot ->
  KernelFunction.isValid slot = true ->
  Forall (fun f => KernelFunction.isValid f = true) kernels ->
  exists tb',
    setKernels undef k kernels tb
    = Some (replicate (length kernels)
              KernelFunctionTable.OVERWROTE_EXISTING_KERNEL, tb')
    /\ KernelFunctionTable.at_ k tb' = Some (default slot (last kernels)).
Proof.
  induction kernels as [|f kernels IH]; intros tb slot Hk E Ev Hall.
  - exists tb. split; [reflexivity|exact E].
  - apply Forall_cons in Hall as [Hf Hall]. cbn [setKernels].
    rewrite (setKernel_at _ _ _ _ _ Hk E), Ev.
    edestruct (IH (KernelFunctionTable.mk
                     (<[k := f]> (KernelFunctionTable.kernels_ tb))
                     (KernelFunctionTable.kernelCount_ tb)) f Hk)
      as (tb' & -> & Hat); [|exact Hf|exact Hall|].
    + proj. apply list_lookup_insert_eq. eapply lookup_lt_Some, E.
    + exists tb'. split; [reflexivity|]. rewrite Hat. f_equal.
      rewrite (last_cons f kernels). destruct (last kernels); reflexivity.
Qed.

(** C6, as stated, fails: for the default-constructed [KernelFunction]
    [setKernel(2, f)] on the constructed table returns, [lookup(2)] then
    reports absence and the slot is not occupied; at the slot map the
    [setKernel] for key 2 that follows it reports "added new" again. *)
Lemma setKernel_of_invalid_kernel_is_not_found :
  (exists ws d',
     DispatchTable.setKernel Sample.UndefinedTensorId 2 KernelFunction.empty
       Sample.fresh = Returned ws d'
     /\ DispatchTable.lookup 2 d' = Some None
     /\ occupied (DispatchTable.kernels_ d') 2 = false)
  /\ (exists tb',
        setKernels Sample.UndefinedTensorId 2 [KernelFunction.empty; Sample.f1]
          (DispatchTable.kernels_ Sample.fresh)
        = Some ([KernelFunctionTable.ADDED_NEW_KERNEL;
                 KernelFunctionTable.ADDED_NEW_KERNEL], tb')).
Proof. split; repeat eexists. Qed.

(** C6, as amended: for every key [k] inside the array other than the
    undefined sentinel, and every kernel [f] that is valid ([isValid()]),
    [setKernel(k, f)] returns and [lookup(k)] then yields the kernel stored,
    [f] with the retrofit of the table if it has one and [f] itself
    otherwise, and reports the slot occupied.  At the slot map, the first
    [setKernel] for [k] reports "added new" when the slot was empty, every
    later [setKernel] for [k] reports "overwrote existing", and the slot
    holds the kernel written last. *)
Theorem setKernel_lookup_last_write_wins
    (N : nat) (undef k : TensorTypeId) (f : KernelFunction.t)
    (fs : list KernelFunction.t) (d : DispatchTable.t) :
  sized N (DispatchTable.kernels_ d) ->
  (k < N)%nat ->
  k <> undef ->
  KernelFunction.isValid f = true ->
  Forall (fun g => KernelFunction.isValid g = true) fs ->
  (exists ws d',
     DispatchTable.setKernel undef k f d = Returned ws d'
     /\ DispatchTable.lookup k d'
        = Some (Some (DispatchTable.applyManuallyBoxedKernel d f))
     /\ occupied (DispatchTable.kernels_ d') k = true)
  /\ (exists tb',
        setKernels undef k (f :: fs) (DispatchTable.kernels_ d)
        = Some ((if occupied (DispatchTable.kernels_ d) k
                 then KernelFunctionTable.OVERWROTE_EXISTING_KERNEL
                 else KernelFunctionTable.ADDED_NEW_KERNEL)
                :: replicate (length fs)
                     KernelFunctionTable.OVERWROTE_EXISTING_KERNEL,
                tb')
        /\ KernelFunctionTable.at_ k tb' = Some (default f (last fs))).
Proof.
  intros Hs Hk Hu Hf Hfs.
  destruct (slot_in_range N _ k Hs Hk) as [slot E].
  assert (k < length (KernelFunctionTable.kernels_ (DispatchTable.kernels_ d)))%nat
    as Hlen by (eapply lookup_lt_Some, E).
  split.
  - eexists _, _. split; [apply (setKernel_returns _ _ _ _ _ Hu E)|].
    unfold DispatchTable.lookup, occupied, KernelFunctionTable.at_. proj.
    rewrite list_lookup_insert_eq by exact Hlen.
    rewrite isValid_applyManuallyBoxedKernel, Hf. auto.
  - cbn [setKernels]. unfold occupied, KernelFunctionTable.at_.
    rewrite (setKernel_at _ _ _ _ _ Hu E), E.
    destruct (KernelFunction.isValid slot).
    + edestruct (setKernels_overwrite undef k fs
                   (KernelFunctionTable.mk
                      (<[k := f]> (KernelFunctionTable.kernels_ (DispatchTable.kernels_ d)))
                      (KernelFunctionTable.kernelCount_ (DispatchTable.kernels_ d)))
                   f Hu) as (tb' & -> & Hat); [|exact Hf|exact Hfs|].
      * proj. apply list_lookup_insert_eq, Hlen.
      * exists tb'. auto.
    + edestruct (setKernels_overwrite undef k fs
                   (KernelFunctionTable.mk
                      (<[k := f]> (KernelFunctionTable.kernels_ (DispatchTable.kernels_ d)))
                      (size_t_incr
                         (KernelFunctionTable.kernelCount_ (DispatchTable.kernels_ d))))
                   f Hu) as (tb' & -> & Hat); [|exact Hf|exact Hfs|].
      * proj. apply list_lookup_insert_eq, Hlen.
      * exists tb'. auto.
Qed.

Lemma setKernel_lookup_last_write_wins_witness :
  (exists ws d',
     DispatchTable.setKernel Sample.UndefinedTensorId 2 Sample.f1 Sample.populated
     = Returned ws d'
     /\ DispatchTable.lookup 2 d' = Some (Some Sample.f1)
     /\ occupied (DispatchTable.kernels_ d') 2 = true)
  /\ (exists tb',
        setKernels Sample.UndefinedTensorId 2 [Sample.f1; Sample.f2; Sample.f3]
          (DispatchTable.kernels_ Sample.populated)
        = Some ([KernelFunctionTable.ADDED_NEW_KERNEL;
                 KernelFunctionTable.OVERWROTE_EXISTING_KERNEL;
                 KernelFunctionTable.OVERWROTE_EXISTING_KERNEL], tb')
        /\ KernelFunctionTable.at_ 2 tb' = Some Sample.f3).
Proof.
  apply (setKernel_lookup_last_write_wins Sample.NumTensorIds
           Sample.UndefinedTensorId 2 Sample.f1 [Sample.f2; Sample.f3]
           Sample.populated).
  - reflexivity.
  - unfold Sample.NumTensorIds. lia.
  - unfold Sample.UndefinedTensorId. lia.
  - reflexivity.
  - repeat constructor.
Defined.

(** C7: for every key [k] inside the array, [removeKernelIfExists(k)]
    returns.  On an unoccupied slot it reports "did not exist" and changes
    nothing, [size()] included; on an occupied slot it reports "removed" and
    [size()] decreases by exactly one.  In both cases [lookup(k)] then
    reports absence.  It fails no assertion, whatever the key. *)
Theorem removeKernelIfExists_spec
    (N : nat) (k : TensorTypeId) (d : DispatchTable.t) :
  (N <= 255)%nat ->
  sized N (DispatchTable.kernels_ d) ->
  counted (DispatchTable.kernels_ d) ->
  (k < N)%nat ->
  (exists r d',
     KernelFunctionTable.removeKernelIfExists k (DispatchTable.kernels_ d)
     = Returned r (DispatchTable.kernels_ d')
     /\ DispatchTable.removeKernelIfExists k d = Returned tt d'
     /\ (if occupied (DispatchTable.kernels_ d) k
         then r = KernelFunctionTable.REMOVED_KERNEL
              /\ KernelFunctionTable.size (DispatchTable.kernels_ d')
                 = KernelFunctionTable.size (DispatchTable.kernels_ d) - 1
         else r = KernelFunctionTable.KERNEL_DIDNT_EXIST /\ d' = d)
     /\ DispatchTable.lookup k d' = Some None)
  /\ (forall j d', DispatchTable.removeKernelIfExists j d <> AssertFailed d').
Proof.
  intros HN Hs Hc Hk.
  split; [|intros j d'; apply removeKernelIfExists_no_assert].
  destruct (slot_in_range N _ k Hs Hk) as [slot E].
  assert (k < length (KernelFunctionTable.kernels_ (DispatchTable.kernels_ d)))%nat
    as Hlen by (eapply lookup_lt_Some, E).
  rewrite (removeKernelIfExists_at _ _ _ E), (removeKernelIfExists_returns _ _ _ E).
  unfold occupied, DispatchTable.lookup, KernelFunctionTable.at_,
    KernelFunctionTable.size. rewrite E.
  destruct (KernelFunction.isValid slot) eqn:Ev.
  - eexists _, _. split; [|split; [reflexivity|]]; proj; [reflexivity|].
    rewrite list_lookup_insert_eq by exact Hlen. split; [|reflexivity].
    split; [reflexivity|]. apply size_t_decr_small.
    unfold counted, KernelFunctionTable.size, sized in *. rewrite Hc.
    pose proof (validCount_pos _ _ _ E Ev).
    pose proof (validCount_le (KernelFunctionTable.kernels_ (DispatchTable.kernels_ d))).
    lia.
  - exists KernelFunctionTable.KERNEL_DIDNT_EXIST, d.
    rewrite E, Ev. auto.
Qed.

Lemma removeKernelIfExists_spec_witness :
  (exists r d',
     KernelFunctionTable.removeKernelIfExists 4
       (DispatchTable.kernels_ Sample.populated)
     = Returned r (DispatchTable.kernels_ d')
     /\ DispatchTable.removeKernelIfExists 4 Sample.populated = Returned tt d'
     /\ (r = KernelFunctionTable.REMOVED_KERNEL
         /\ KernelFunctionTable.size (DispatchTable.kernels_ d') = 2 - 1)
     /\ DispatchTable.lookup 4 d' = Some None)
  /\ (forall j d',
        DispatchTable.removeKernelIfExists j Sample.populated <> AssertFailed d').
Proof.
  apply (removeKernelIfExists_spec Sample.NumTensorIds 4 Sample.populated).
  - unfold Sample.NumTensorIds. lia.
  - reflexivity.
  - reflexivity.
  - unfold Sample.NumTensorIds. lia.
Defined.

(** C10: for every key [k] inside the array other than the undefined
    sentinel and every key [j] distinct from [k], [setKernel(k, f)] and
    [removeKernelIfExists(k)] return and leave slot [j] and the catch-all
    slot as they were; [setCatchallKernel] and [removeCatchallKernel] leave
    the slot map, its slots and its counter, as it was. *)
Theorem mutations_are_framed
    (N : nat) (undef k j : TensorTypeId) (f : KernelFunction.t)
    (d : DispatchTable.t) :
  sized N (DispatchTable.kernels_ d) ->
  (k < N)%nat ->
  k <> undef ->
  j <> k ->
  (exists ws d',
     DispatchTable.setKernel undef k f d = Returned ws d'
     /\ KernelFunctionTable.at_ j (DispatchTable.kernels_ d')
        = KernelFunctionTable.at_ j (DispatchTable.kernels_ d)
     /\ DispatchTable.catchallKernel_ d' = DispatchTable.catchallKernel_ d)
  /\ (exists d',
        DispatchTable.removeKernelIfExists k d = Returned tt d'
        /\ KernelFunctionTable.at_ j (DispatchTable.kernels_ d')
           = KernelFunctionTable.at_ j (DispatchTable.kernels_ d)
        /\ DispatchTable.catchallKernel_ d' = DispatchTable.catchallKernel_ d)
  /\ (exists ws d',
        DispatchTable.setCatchallKernel f d = Returned ws d'
        /\ DispatchTable.kernels_ d' = DispatchTable.kernels_ d)
  /\ (exists d',
        left_behind (DispatchTable.removeCatchallKernel d) = Some d'
        /\ DispatchTable.kernels_ d' = DispatchTable.kernels_ d).
Proof.
  intros Hs Hk Hu Hj.
  destruct (slot_in_range N _ k Hs Hk) as [slot E].
  repeat split.
  - eexists _, _. split; [apply (setKernel_returns _ _ _ _ _ Hu E)|].
    unfold KernelFunctionTable.at_. proj.
    rewrite list_lookup_insert_ne by congruence. auto.
  - eexists. split; [apply (removeKernelIfExists_returns _ _ _ E)|].
    destruct (KernelFunction.isValid slot); [|auto].
    unfold KernelFunctionTable.at_. proj.
    rewrite list_lookup_insert_ne by congruence. auto.
  - eexists _, _. split; reflexivity.
  - unfold DispatchTable.removeCatchallKernel.
    destruct (KernelFunction.isValid (DispatchTable.catchallKernel_ d));
      eexists; split; reflexivity.
Qed.

Lemma mutations_are_framed_witness :
  (exists ws d',
     DispatchTable.setKernel Sample.UndefinedTensorId 4 Sample.f3 Sample.populated
     = Returned ws d'
     /\ KernelFunctionTable.at_ 1 (DispatchTable.kernels_ d') = Some Sample.f1
     /\ DispatchTable.catchallKernel_ d' = Sample.f3)
  /\ (exists d',
        DispatchTable.removeKernelIfExists 4 Sample.populated = Returned tt d'
        /\ KernelFunctionTable.at_ 1 (DispatchTable.kernels_ d') = Some Sample.f1
        /\ DispatchTable.catchallKernel_ d' = Sample.f3)
  /\ (exists ws d',
        DispatchTable.setCatchallKernel Sample.f3 Sample.populated
        = Returned ws d'
        /\ DispatchTable.kernels_ d' = DispatchTable.kernels_ Sample.populated)
  /\ (exists d',
        left_behind (DispatchTable.removeCatchallKernel Sample.populated)
        = Some d'
        /\ DispatchTable.kernels_ d' = DispatchTable.kernels_ Sample.populated).
Proof.
  apply (mutations_are_framed Sample.NumTensorIds Sample.UndefinedTensorId
           4 1 Sample.f3 Sample.populated).
  - reflexivity.
  - unfold Sample.NumTensorIds. lia.
  - unfold Sample.UndefinedTensorId. lia.
  - lia.
Defined.

(** ** The listing of the dispatch keys *)

Section listing.

Implicit Types (s str sep item : string) (items : list string).

Lemma append_assoc s1 s2 s3 : (s1 +:+ s2) +:+ s3 = s1 +:+ s2 +:+ s3.
Proof.
  induction s1 as [|c s1 IH]; [reflexivity|].
  change (String c ((s1 +:+ s2) +:+ s3) = String c (s1 +:+ s2 +:+ s3)).
  rewrite IH. reflexivity.
Qed.

Lemma append_nil_r s : s +:+ "" = s.
Proof.
  induction s as [|c s IH]; [reflexivity|].
  change (String c (s +:+ "") = String c s). rewrite IH. reflexivity.
Qed.

Lemma joinWith_cons sep item items :
  joinWith sep (item :: items) = item +:+ separated sep items.
Proof.
  revert item. induction items as [|item' items IH]; intros item.
  - cbn [joinWith separated]. rewrite append_nil_r. reflexivity.
  - change (joinWith sep (item :: item' :: items))
      with (item +:+ sep +:+ joinWith sep (item' :: items)).
    rewrite IH. reflexivity.
Qed.

Lemma separated_snoc sep items item :
  separated sep (items ++ [item])%list = separated sep items +:+ sep +:+ item.
Proof.
  induction items as [|item' items IH].
  - cbn [app separated]. rewrite append_nil_r. reflexivity.
  - cbn [app separated]. rewrite IH, !append_assoc. reflexivity.
Qed.

Lemma joinWith_snoc sep item' items item :
  joinWith sep ((item' :: items) ++ [item])%list
  = joinWith sep (item' :: items) +:+ sep +:+ item.
Proof.
  change ((item' :: items) ++ [item])%list with (item' :: (items ++ [item])%list).
  rewrite !joinWith_cons, separated_snoc, append_assoc. reflexivity.
Qed.

Variable toString : TensorTypeId -> string.

(** The loop appends the names of the occupied keys it visits, separated. *)
Lemma listAllDispatchKeys_loop_spec ks iters : forall str has_kernels,
  Forall (fun iter => (iter < length (KernelFunctionTable.kernels_ ks))%nat) iters ->
  DispatchTable.listAllDispatchKeys_loop toString ks iters str has_kernels
  = let items := map toString (filter (fun k => occupied ks k = true) iters) in
    Some (str +:+ (if has_kernels then separated ", " items
                   else joinWith ", " items),
          match items with [] => has_kernels | _ => true end).
Proof.
  induction iters as [|iter iters IH]; intros str has_kernels Hin.
  - cbn [DispatchTable.listAllDispatchKeys_loop]. rewrite filter_nil.
    cbn zeta. cbn [map].
    destruct has_kernels; cbn [separated joinWith]; rewrite append_nil_r;
      reflexivity.
  - apply Forall_cons in Hin as [Hi Hin].
    destruct (lookup_lt_is_Some_2 _ _ Hi) as [slot E].
    assert (occupied ks iter = KernelFunction.isValid slot) as Eo.
    { unfold occupied, KernelFunctionTable.at_. rewrite E. reflexivity. }
    cbn [DispatchTable.listAllDispatchKeys_loop]. rewrite filter_cons.
    unfold KernelFunctionTable.at_. rewrite E.
    destruct (KernelFunction.isValid slot); cbn [negb]; case_decide;
      try congruence.
    + rewrite (IH _ _ Hin). cbn zeta. cbn [map].
      set (items := map toString (filter (fun k => occupied ks k = true) iters)).
      assert (match items with [] => true | _ => true end = true) as ->
        by (destruct items; reflexivity).
      f_equal. f_equal. destruct has_kernels.
      * cbn [separated]. rewrite !append_assoc. reflexivity.
      * rewrite joinWith_cons, append_assoc. reflexivity.
    + apply (IH _ _ Hin).
Qed.

Lemma listAllDispatchKeys_eq N d :
  sized N (DispatchTable.kernels_ d) ->
  DispatchTable.listAllDispatchKeys N toString d
  = Some ("[" +:+ joinWith ", "
                    (map toString (occupiedKeys N (DispatchTable.kernels_ d))
                     ++ catchallMarker d)%list
              +:+ "]").
Proof.
  intros Hs. unfold DispatchTable.listAllDispatchKeys.
  rewrite listAllDispatchKeys_loop_spec.
  2:{ apply Forall_forall. intros iter Hi. apply elem_of_seq in Hi.
      unfold sized in Hs. lia. }
  cbn zeta. fold (occupiedKeys N (DispatchTable.kernels_ d)).
  unfold catchallMarker.
  destruct (KernelFunction.isValid (DispatchTable.catchallKernel_ d)).
  - destruct (map toString (occupiedKeys N (DispatchTable.kernels_ d)))
      as [|item items].
    + reflexivity.
    + rewrite joinWith_snoc, !append_assoc. reflexivity.
  - rewrite app_nil_r.
    destruct (map toString (occupiedKeys N (DispatchTable.kernels_ d)));
      rewrite append_assoc; reflexivity.
Qed.

End listing.

(** C4: for every table state, [listAllDispatchKeys] returns, between
    brackets and separated by a comma and a space, the names of exactly the
    occupied keys in ascending numeric order, followed by the marker
    [CATCH-ALL] if and only if the catch-all is installed; with keys named
    by their number, on a table whose occupied keys are 1 and 4 and whose
    catch-all is installed, the text is [[1, 4, CATCH-ALL]]. *)
Theorem listAllDispatchKeys_spec
    (N : nat) (toString : TensorTypeId -> string) (d : DispatchTable.t) :
  sized N (DispatchTable.kernels_ d) ->
  StronglySorted lt (occupiedKeys N (DispatchTable.kernels_ d))
  /\ (forall k, k ∈ occupiedKeys N (DispatchTable.kernels_ d)
                <-> occupied (DispatchTable.kernels_ d) k = true)
  /\ DispatchTable.listAllDispatchKeys N toString d
     = Some ("[" +:+ joinWith ", "
                       (map toString (occupiedKeys N (DispatchTable.kernels_ d))
                        ++ (if KernelFunction.isValid (DispatchTable.catchallKernel_ d)
                            then ["CATCH-ALL"] else []))%list
                 +:+ "]")
  /\ (occupiedKeys N (DispatchTable.kernels_ d) = [1; 4]%nat ->
      KernelFunction.isValid (DispatchTable.catchallKernel_ d) = true ->
      DispatchTable.listAllDispatchKeys N toStringDecimal d
      = Some "[1, 4, CATCH-ALL]").
Proof.
  intros Hs.
  split; [apply occupiedKeys_sorted|].
  split; [intros k; apply occupiedKeys_elem, Hs|].
  split; [apply listAllDispatchKeys_eq, Hs|].
  intros Hkeys Hc. rewrite (listAllDispatchKeys_eq toStringDecimal N d Hs).
  unfold catchallMarker. rewrite Hkeys, Hc. reflexivity.
Qed.

Lemma listAllDispatchKeys_spec_witness :
  StronglySorted lt
    (occupiedKeys Sample.NumTensorIds (DispatchTable.kernels_ Sample.populated))
  /\ (forall k,
        k ∈ occupiedKeys Sample.NumTensorIds
              (DispatchTable.kernels_ Sample.populated)
        <-> occupied (DispatchTable.kernels_ Sample.populated) k = true)
  /\ DispatchTable.listAllDispatchKeys Sample.NumTensorIds toStringDecimal
       Sample.populated
     = Some "[1, 4, CATCH-ALL]"
  /\ (occupiedKeys Sample.NumTensorIds (DispatchTable.kernels_ Sample.populated)
      = [1; 4]%nat ->
      KernelFunction.isValid (DispatchTable.catchallKernel_ Sample.populated)
      = true ->
      DispatchTable.listAllDispatchKeys Sample.NumTensorIds toStringDecimal
        Sample.populated
      = Some "[1, 4, CATCH-ALL]").
Proof.
  apply (listAllDispatchKeys_spec Sample.NumTensorIds toStringDecimal
           Sample.populated).
  reflexivity.
Defined.

(** ** The retrofit installer *)

(** What [setManuallyBoxedKernel_] does on a table without retrofit: it
    returns, every valid keyed slot carries [func], and neither the catch-all
    slot nor the retrofit field of the table has changed. *)
Lemma setManuallyBoxedKernel__effect (N : nat)
    (func : KernelFunction.InternalBoxedKernelFunction) (d : DispatchTable.t) :
  sized N (DispatchTable.kernels_ d) ->
  DispatchTable.manuallyBoxedKernel_ d = None ->
  exists d',
    DispatchTable.setManuallyBoxedKernel_ N func d = Returned tt d'
    /\ (forall k slot,
          KernelFunctionTable.at_ k (DispatchTable.kernels_ d) = Some slot ->
          KernelFunctionTable.at_ k (DispatchTable.kernels_ d')
          = Some (if KernelFunction.isValid slot
                  then KernelFunction.setManuallyBoxedKernel_ func slot
                  else slot))
    /\ DispatchTable.catchallKernel_ d' = DispatchTable.catchallKernel_ d
    /\ DispatchTable.manuallyBoxedKernel_ d' = None.
Proof.
  intros Hs Hm.
  destruct (setManuallyBoxedKernel__returns N func d Hs Hm) as (ks & E & ->).
  eexists. split; [reflexivity|]. proj. split; [|auto].
  intros k slot Ek. unfold KernelFunctionTable.at_ in *.
  rewrite (sweep_slot _ _ _ _ _ _ E Ek).
  rewrite bool_decide_eq_true_2; [reflexivity|].
  apply elem_of_seq. apply lookup_lt_Some in Ek. unfold sized in Hs. lia.
Qed.

(** C1, the code at the failing input: on the table of [add] holding kernels
    at keys 1 and 4 and a catch-all kernel, [setManuallyBoxedKernel_(adapter)]
    returns; the kernels at keys 1 and 4 carry [adapter], the catch-all
    kernel does not, the table records no retrofit, and the kernels that
    [setKernel] and [setCatchallKernel] register afterwards are stored
    without [adapter]. *)
Theorem setManuallyBoxedKernel__misses_catchall_and_later_kernels :
  exists d1 ws2 d2 ws3 d3,
    DispatchTable.setManuallyBoxedKernel_ Sample.NumTensorIds Sample.adapter
      Sample.populated = Returned tt d1
    /\ DispatchTable.lookup 1 d1
       = Some (Some (KernelFunction.mk (Some 1%nat) (Some Sample.adapter)))
    /\ DispatchTable.lookup 4 d1
       = Some (Some (KernelFunction.mk (Some 2%nat) (Some Sample.adapter)))
    /\ DispatchTable.lookupCatchallKernel d1
       = Some (KernelFunction.mk (Some 3%nat) None)
    /\ DispatchTable.manuallyBoxedKernel_ d1 = None
    /\ DispatchTable.setKernel Sample.UndefinedTensorId 2 Sample.f1 d1
       = Returned ws2 d2
    /\ DispatchTable.lookup 2 d2
       = Some (Some (KernelFunction.mk (Some 1%nat) None))
    /\ DispatchTable.setCatchallKernel Sample.f2 d2 = Returned ws3 d3
    /\ DispatchTable.lookupCatchallKernel d3
       = Some (KernelFunction.mk (Some 2%nat) None).
Proof. repeat eexists. Qed.

(** C2, the code at the failing input: a second
    [setManuallyBoxedKernel_] on the same table returns like the first; the
    retrofit field is absent before, between and after the two calls, and
    the keyed kernels carry the pointer of the second call. *)
Theorem setManuallyBoxedKernel__twice_returns :
  exists d1 d2,
    DispatchTable.manuallyBoxedKernel_ Sample.populated = None
    /\ DispatchTable.setManuallyBoxedKernel_ Sample.NumTensorIds Sample.adapter
         Sample.populated = Returned tt d1
    /\ DispatchTable.manuallyBoxedKernel_ d1 = None
    /\ DispatchTable.setManuallyBoxedKernel_ Sample.NumTensorIds 9%nat d1
       = Returned tt d2
    /\ DispatchTable.manuallyBoxedKernel_ d2 = None
    /\ DispatchTable.lookup 1 d2
       = Some (Some (KernelFunction.mk (Some 1%nat) (Some 9%nat))).
Proof. repeat eexists. Qed.

(** ** Further properties: construction and registration *)

Lemma validCount_zero_iff (slots : list KernelFunction.t) :
  validCount slots = 0%nat
  <-> forall i slot, slots !! i = Some slot -> KernelFunction.isValid slot = false.
Proof.
  split.
  - intros Hz i slot E. destruct (KernelFunction.isValid slot) eqn:Ev; [|reflexivity].
    pose proof (validCount_pos _ _ _ E Ev). lia.
  - induction slots as [|s slots IH]; intros Hall; [reflexivity|].
    apply Nat2Z.inj. rewrite validCount_cons. unfold weight.
    rewrite (Hall 0%nat s eq_refl).
    rewrite IH; [reflexivity|]. intros i slot E. apply (Hall (S i) slot E).
Qed.

Lemma occupiedKeys_none N ks :
  (forall k, occupied ks k = false) -> occupiedKeys N ks = [].
Proof.
  intros Hno. unfold occupiedKeys.
  induction (seq 0 N) as [|k keys IH]; [reflexivity|].
  rewrite filter_cons, IH. case_decide; [|reflexivity].
  rewrite Hno in *. discriminate.
Qed.

(** X1: a table as constructed is empty.  [isEmpty()] holds, [size()] is
    zero, [lookup] reports absence for every key of the array,
    [lookupCatchallKernel] reports absence, the listing is [[]], and the name
    and the key extractor are those of the schema. *)
Theorem make_is_empty
    (N : nat) (toString : TensorTypeId -> string)
    (schema : DispatchTable.FunctionSchema) :
  DispatchTable.isEmpty (DispatchTable.make N schema) = true
  /\ KernelFunctionTable.size
       (DispatchTable.kernels_ (DispatchTable.make N schema)) = 0
  /\ (forall k,
        DispatchTable.lookup k (DispatchTable.make N schema)
        = if decide (k < N)%nat then Some None else None)
  /\ DispatchTable.lookupCatchallKernel (DispatchTable.make N schema) = None
  /\ DispatchTable.listAllDispatchKeys N toString (DispatchTable.make N schema)
     = Some "[]"
  /\ DispatchTable.operatorName (DispatchTable.make N schema)
     = DispatchTable.operator_name schema
  /\ DispatchTable.dispatchKeyExtractor (DispatchTable.make N schema)
     = DispatchTable.DispatchKeyExtractor_make schema.
Proof.
  repeat split.
  - intros k. unfold DispatchTable.lookup, DispatchTable.make,
      KernelFunctionTable.at_, KernelFunctionTable.make. proj.
    case_decide as Hk.
    + rewrite lookup_replicate_2 by exact Hk. reflexivity.
    + rewrite lookup_ge_None_2 by (rewrite length_replicate; lia).
      reflexivity.
  - rewrite (listAllDispatchKeys_eq toString N) by apply make_sized.
    unfold DispatchTable.make at 1. proj.
    rewrite occupiedKeys_none by apply make_unoccupied. reflexivity.
Qed.

(** X2: on a table whose counter is exact, [setKernel] at a key inside the
    array other than the undefined one returns.  When the slot was occupied
    it warns once, naming the operator and the key, and [size()] is
    unchanged; when the slot was empty it does not warn and [size()] grows by
    exactly one.  In both cases the table is not empty afterwards. *)
Theorem setKernel_warning_and_size
    (N : nat) (undef k : TensorTypeId) (f : KernelFunction.t)
    (d : DispatchTable.t) :
  (N <= 255)%nat ->
  sized N (DispatchTable.kernels_ d) ->
  counted (DispatchTable.kernels_ d) ->
  (k < N)%nat ->
  k <> undef ->
  exists ws d',
    DispatchTable.setKernel undef k f d = Returned ws d'
    /\ (if occupied (DispatchTable.kernels_ d) k
        then ws = [DispatchTable.WarnOverwroteKernel (DispatchTable.operatorName d) k]
             /\ KernelFunctionTable.size (DispatchTable.kernels_ d')
                = KernelFunctionTable.size (DispatchTable.kernels_ d)
        else ws = []
             /\ KernelFunctionTable.size (DispatchTable.kernels_ d')
                = KernelFunctionTable.size (DispatchTable.kernels_ d) + 1)
    /\ DispatchTable.isEmpty d' = false.
Proof.
  intros HN Hs Hc Hk Hu.
  destruct (slot_in_range N _ k Hs Hk) as [slot E].
  eexists _, _. split; [apply (setKernel_returns _ _ _ _ _ Hu E)|].
  unfold occupied, KernelFunctionTable.at_, DispatchTable.isEmpty,
    KernelFunctionTable.size, DispatchTable.operatorName. proj. rewrite E.
  unfold counted, KernelFunctionTable.size, sized in *.
  pose proof (validCount_le (KernelFunctionTable.kernels_ (DispatchTable.kernels_ d))).
  destruct (KernelFunction.isValid slot) eqn:Ev.
  - pose proof (validCount_pos _ _ _ E Ev).
    split; [auto|]. apply andb_false_intro2, Z.eqb_neq. lia.
  - pose proof (validCount_lt _ _ _ E Ev).
    rewrite size_t_incr_small by lia.
    split; [auto|]. apply andb_false_intro2, Z.eqb_neq. lia.
Qed.

Lemma setKernel_warning_and_size_witness :
  exists ws d',
    DispatchTable.setKernel Sample.UndefinedTensorId 4 Sample.f3 Sample.populated
    = Returned ws d'
    /\ (ws = [DispatchTable.WarnOverwroteKernel "add" 4%nat]
        /\ KernelFunctionTable.size (DispatchTable.kernels_ d') = 2)
    /\ DispatchTable.isEmpty d' = false.
Proof.
  apply (setKernel_warning_and_size Sample.NumTensorIds
           Sample.UndefinedTensorId 4 Sample.f3 Sample.populated).
  - unfold Sample.NumTensorIds. lia.
  - reflexivity.
  - reflexivity.
  - unfold Sample.NumTensorIds. lia.
  - unfold Sample.UndefinedTensorId. lia.
Defined.

(** X3: [setCatchallKernel] of a kernel always returns, and
    [lookupCatchallKernel] then yields the kernel stored, the kernel given
    with the retrofit of the table applied when the table records one.  It
    warns once, naming the operator, exactly when a catch-all kernel was
    installed before, and the table is not empty afterwards. *)
Theorem setCatchallKernel_lookupCatchallKernel
    (f : KernelFunction.t) (d : DispatchTable.t) :
  KernelFunction.isValid f = true ->
  exists ws d',
    DispatchTable.setCatchallKernel f d = Returned ws d'
    /\ DispatchTable.lookupCatchallKernel d'
       = Some (DispatchTable.applyManuallyBoxedKernel d f)
    /\ ws = match DispatchTable.lookupCatchallKernel d with
            | Some _ => [DispatchTable.WarnOverwroteCatchall
                           (DispatchTable.operatorName d)]
            | None => []
            end
    /\ DispatchTable.isEmpty d' = false.
Proof.
  intros Hf. eexists _, _. split; [reflexivity|].
  unfold DispatchTable.lookupCatchallKernel, DispatchTable.isEmpty. proj.
  rewrite isValid_applyManuallyBoxedKernel, Hf.
  destruct (KernelFunction.isValid (DispatchTable.catchallKernel_ d)); auto.
Qed.

Lemma setCatchallKernel_lookupCatchallKernel_witness :
  exists ws d',
    DispatchTable.setCatchallKernel Sample.f1 Sample.populated = Returned ws d'
    /\ DispatchTable.lookupCatchallKernel d' = Some Sample.f1
    /\ ws = [DispatchTable.WarnOverwroteCatchall "add"]
    /\ DispatchTable.isEmpty d' = false.
Proof.
  apply (setCatchallKernel_lookupCatchallKernel Sample.f1 Sample.populated).
  reflexivity.
Defined.

(** X4: on a table whose catch-all slot is in its default state,
    [setCatchallKernel] of a kernel does not warn, and
    [removeCatchallKernel] after it returns and gives back the table as it
    was before the two calls. *)
Theorem setCatchallKernel_removeCatchallKernel
    (f : KernelFunction.t) (d : DispatchTable.t) :
  KernelFunction.isValid f = true ->
  DispatchTable.catchallKernel_ d = KernelFunction.empty ->
  exists d',
    DispatchTable.setCatchallKernel f d = Returned [] d'
    /\ DispatchTable.removeCatchallKernel d' = Returned tt d.
Proof.
  intros Hf He. eexists. split.
  - unfold DispatchTable.setCatchallKernel. rewrite He. reflexivity.
  - unfold DispatchTable.removeCatchallKernel. proj.
    rewrite isValid_applyManuallyBoxedKernel, Hf.
    destruct d. unfold DispatchTable.with_catchall. proj. subst. reflexivity.
Qed.

Lemma setCatchallKernel_removeCatchallKernel_witness :
  exists d',
    DispatchTable.setCatchallKernel Sample.f3 Sample.fresh = Returned [] d'
    /\ DispatchTable.removeCatchallKernel d' = Returned tt Sample.fresh.
Proof.
  apply (setCatchallKernel_removeCatchallKernel Sample.f3 Sample.fresh);
    reflexivity.
Defined.

(** ** Further properties: vacant slots and round trips *)

Section vacant.

Variable NumTensorIds : nat.
Variable UndefinedTensorId : TensorTypeId.

Lemma exec_vacant_default op d d' :
  vacant_default d ->
  registers_kernels op ->
  exec NumTensorIds UndefinedTensorId op d = Some d' ->
  vacant_default d'.
Proof.
  unfold vacant_default. intros Hd Hop.
  destruct op as [k kernel|k|kernel| |func]; cbn [exec].
  - unfold DispatchTable.setKernel.
    destruct (KernelFunctionTable.setKernel UndefinedTensorId k
                (DispatchTable.applyManuallyBoxedKernel d kernel)
                (DispatchTable.kernels_ d)) as [r ks|ks|] eqn:E;
      cbn; intros [= <-] j slot; proj.
    + apply setKernel_inv in E as (_ & old & _ & _ & ->). proj.
      intros [(_ & <- & _)|(_ & Ej)]%list_lookup_insert_Some Hv.
      * rewrite isValid_applyManuallyBoxedKernel in Hv. cbn in Hop. congruence.
      * eapply Hd; eauto.
    + apply setKernel_failed_inv in E as [_ ->]. apply Hd.
  - unfold DispatchTable.removeKernelIfExists.
    destruct (KernelFunctionTable.removeKernelIfExists k (DispatchTable.kernels_ d))
      as [r ks|ks|] eqn:E; cbn; intros [= <-] j slot; proj.
    + apply removeKernelIfExists_inv in E as (old & _ & E).
      destruct (KernelFunction.isValid old); destruct E as [_ ->]; [|apply Hd].
      proj. intros [(_ & <- & _)|(_ & Ej)]%list_lookup_insert_Some Hv;
        [reflexivity|]. eapply Hd; eauto.
    + exfalso. eapply removeKernelIfExists_never_asserts, E.
  - cbn. intros [= <-]. exact Hd.
  - unfold DispatchTable.removeCatchallKernel.
    destruct (KernelFunction.isValid (DispatchTable.catchallKernel_ d));
      cbn; intros [= <-]; exact Hd.
  - unfold DispatchTable.setManuallyBoxedKernel_.
    destruct (DispatchTable.manuallyBoxedKernel_ d);
      [cbn; intros [= <-]; exact Hd|].
    destruct (DispatchTable.setManuallyBoxedKernel_loop func (seq 0 NumTensorIds)
                (DispatchTable.kernels_ d)) as [ks|] eqn:E;
      cbn; [|discriminate].
    intros [= <-] j slot Ej Hv. proj.
    destruct (sweep_preserves _ _ _ _ E) as (Hl & _ & _).
    destruct (lookup_lt_is_Some_2
                (KernelFunctionTable.kernels_ (DispatchTable.kernels_ d)) j)
      as [old Eo].
    { rewrite <- Hl. eapply lookup_lt_Some, Ej. }
    rewrite (sweep_slot _ _ _ _ _ _ E Eo) in Ej. injection Ej as <-.
    destruct (bool_decide (j ∈ seq 0 NumTensorIds) && KernelFunction.isValid old)
      eqn:Eb.
    + apply andb_true_iff in Eb as [_ Eb].
      rewrite isValid_setManuallyBoxedKernel_ in Hv. congruence.
    + eapply Hd; eauto.
Qed.

Lemma reachable_vacant_default schema d :
  reachable NumTensorIds UndefinedTensorId schema d -> vacant_default d.
Proof.
  induction 1 as [|op d d' _ IH Hop E].
  - intros j slot Ej _. unfold DispatchTable.make, KernelFunctionTable.make in Ej.
    proj. apply lookup_replicate in Ej as [-> _]. reflexivity.
  - eapply exec_vacant_default; eauto.
Qed.

End vacant.

Lemma size_t_decr_incr n : 0 <= n < 255 -> size_t_decr (size_t_incr n) = n.
Proof.
  intros H. rewrite size_t_incr_small by lia.
  rewrite size_t_decr_small by lia. lia.
Qed.

(** X5: on a table of an operator, [setKernel(k, f)] of a kernel at an empty
    slot (a key inside the array other than the undefined one) followed by
    [removeKernelIfExists(k)] gives back the table as it was before the two
    calls, slots and counter alike. *)
Theorem setKernel_removeKernelIfExists_roundtrip
    (N : nat) (undef k : TensorTypeId) (schema : DispatchTable.FunctionSchema)
    (f : KernelFunction.t) (d : DispatchTable.t) :
  (N <= 255)%nat ->
  reachable N undef schema d ->
  (k < N)%nat ->
  k <> undef ->
  occupied (DispatchTable.kernels_ d) k = false ->
  KernelFunction.isValid f = true ->
  exists d',
    DispatchTable.setKernel undef k f d = Returned [] d'
    /\ DispatchTable.lookup k d'
       = Some (Some (DispatchTable.applyManuallyBoxedKernel d f))
    /\ DispatchTable.removeKernelIfExists k d' = Returned tt d.
Proof.
  intros HN Hd Hk Hu Ho Hf.
  destruct (reachable_invariant N undef HN schema d Hd) as (Hs & Hc & _).
  destruct (slot_in_range N _ k Hs Hk) as [slot E].
  assert (KernelFunction.isValid slot = false) as Ev.
  { unfold occupied, KernelFunctionTable.at_ in Ho. rewrite E in Ho. exact Ho. }
  assert (slot = KernelFunction.empty) as ->
    by (eapply (reachable_vacant_default N undef schema d Hd); eauto).
  assert (k < length (KernelFunctionTable.kernels_ (DispatchTable.kernels_ d)))%nat
    as Hlen by (eapply lookup_lt_Some, E).
  eexists. split.
  { rewrite (setKernel_returns _ _ _ _ _ Hu E), Ev. reflexivity. }
  split.
  { unfold DispatchTable.lookup, KernelFunctionTable.at_. proj.
    rewrite list_lookup_insert_eq by exact Hlen.
    rewrite isValid_applyManuallyBoxedKernel, Hf. reflexivity. }
  erewrite removeKernelIfExists_returns.
  2:{ proj. apply list_lookup_insert_eq, Hlen. }
  rewrite isValid_applyManuallyBoxedKernel, Hf. f_equal.
  unfold DispatchTable.with_kernels. proj.
  rewrite list_insert_insert_eq, (list_insert_id _ _ _ E).
  rewrite size_t_decr_incr.
  - destruct d as [[slots count] ? ? ? ?]. reflexivity.
  - unfold counted, KernelFunctionTable.size, sized in *.
    pose proof (validCount_lt _ _ _ E Ev). lia.
Qed.

Lemma setKernel_removeKernelIfExists_roundtrip_witness :
  exists d',
    DispatchTable.setKernel Sample.UndefinedTensorId 2 Sample.f3 Sample.populated
    = Returned [] d'
    /\ DispatchTable.lookup 2 d' = Some (Some Sample.f3)
    /\ DispatchTable.removeKernelIfExists 2 d' = Returned tt Sample.populated.
Proof.
  apply (setKernel_removeKernelIfExists_roundtrip Sample.NumTensorIds
           Sample.UndefinedTensorId 2 Sample.add_schema Sample.f3
           Sample.populated).
  - unfold Sample.NumTensorIds. lia.
  - apply populated_reachable.
  - unfold Sample.NumTensorIds. lia.
  - unfold Sample.UndefinedTensorId. lia.
  - reflexivity.
  - reflexivity.
Defined.

(** ** Further properties: the sweep, emptiness and the undefined key *)

Lemma occupied_ext N ks ks' :
  (forall k, occupied ks' k = occupied ks k) ->
  occupiedKeys N ks' = occupiedKeys N ks.
Proof.
  intros Hk. unfold occupiedKeys. apply filter_ext_elem.
  intros k _. rewrite Hk. reflexivity.
Qed.

(** X6: on a table that records no retrofit, [setManuallyBoxedKernel_(func)]
    returns; afterwards [lookup] yields, for every key, the kernel it yielded
    before with [func] installed, and absence where it reported absence.
    Which keys are occupied, [size()], [isEmpty()] and the listing are
    unchanged. *)
Theorem setManuallyBoxedKernel__keyed_sweep
    (N : nat) (toString : TensorTypeId -> string)
    (func : KernelFunction.InternalBoxedKernelFunction) (d : DispatchTable.t) :
  sized N (DispatchTable.kernels_ d) ->
  DispatchTable.manuallyBoxedKernel_ d = None ->
  exists d',
    DispatchTable.setManuallyBoxedKernel_ N func d = Returned tt d'
    /\ (forall k,
          DispatchTable.lookup k d'
          = option_map (option_map (KernelFunction.setManuallyBoxedKernel_ func))
              (DispatchTable.lookup k d))
    /\ KernelFunctionTable.size (DispatchTable.kernels_ d')
       = KernelFunctionTable.size (DispatchTable.kernels_ d)
    /\ DispatchTable.isEmpty d' = DispatchTable.isEmpty d
    /\ occupiedKeys N (DispatchTable.kernels_ d')
       = occupiedKeys N (DispatchTable.kernels_ d)
    /\ DispatchTable.listAllDispatchKeys N toString d'
       = DispatchTable.listAllDispatchKeys N toString d.
Proof.
  intros Hs Hm.
  destruct (setManuallyBoxedKernel__returns N func d Hs Hm) as (ks & E & ->).
  destruct (sweep_preserves _ _ _ _ E) as (Hl & Hc & _).
  assert (forall k,
            KernelFunctionTable.kernels_ ks !! k
            = option_map (fun slot => if KernelFunction.isValid slot
                                then KernelFunction.setManuallyBoxedKernel_ func slot
                                else slot)
                (KernelFunctionTable.kernels_ (DispatchTable.kernels_ d) !! k))
    as Hslot.
  { intros k.
    destruct (KernelFunctionTable.kernels_ (DispatchTable.kernels_ d) !! k)
      as [slot|] eqn:Ek.
    - rewrite (sweep_slot _ _ _ _ _ _ E Ek).
      rewrite bool_decide_eq_true_2; [reflexivity|].
      apply elem_of_seq. apply lookup_lt_Some in Ek. unfold sized in Hs. lia.
    - apply lookup_ge_None in Ek. apply lookup_ge_None_2. lia. }
  assert (forall k, occupied ks k = occupied (DispatchTable.kernels_ d) k) as Hocc.
  { intros k. unfold occupied, KernelFunctionTable.at_. rewrite Hslot.
    destruct (KernelFunctionTable.kernels_ (DispatchTable.kernels_ d) !! k)
      as [slot|]; [|reflexivity].
    cbn. destruct (KernelFunction.isValid slot) eqn:Ev; [|exact Ev].
    rewrite isValid_setManuallyBoxedKernel_. exact Ev. }
  assert (sized N ks) as Hs' by (unfold sized in *; congruence).
  eexists. split; [reflexivity|]. proj.
  split; [|split; [exact Hc|split; [|split]]].
  - intros k. unfold DispatchTable.lookup, KernelFunctionTable.at_. proj.
    rewrite Hslot.
    destruct (KernelFunctionTable.kernels_ (DispatchTable.kernels_ d) !! k)
      as [slot|]; [|reflexivity].
    cbn. destruct (KernelFunction.isValid slot) eqn:Ev.
    + rewrite isValid_setManuallyBoxedKernel_, Ev. reflexivity.
    + rewrite Ev. reflexivity.
  - unfold DispatchTable.isEmpty, KernelFunctionTable.size. proj.
    rewrite Hc. reflexivity.
  - apply occupied_ext, Hocc.
  - rewrite !(listAllDispatchKeys_eq toString N) by assumption.
    unfold catchallMarker. proj. rewrite (occupied_ext N _ _ Hocc). reflexivity.
Qed.

Lemma setManuallyBoxedKernel__keyed_sweep_witness :
  exists d',
    DispatchTable.setManuallyBoxedKernel_ Sample.NumTensorIds Sample.adapter
      Sample.populated = Returned tt d'
    /\ (forall k,
          DispatchTable.lookup k d'
          = option_map (option_map (KernelFunction.setManuallyBoxedKernel_ Sample.adapter))
              (DispatchTable.lookup k Sample.populated))
    /\ KernelFunctionTable.size (DispatchTable.kernels_ d') = 2
    /\ DispatchTable.isEmpty d' = false
    /\ occupiedKeys Sample.NumTensorIds (DispatchTable.kernels_ d')
       = [1; 4]%nat
    /\ DispatchTable.listAllDispatchKeys Sample.NumTensorIds toStringDecimal d'
       = Some "[1, 4, CATCH-ALL]".
Proof.
  apply (setManuallyBoxedKernel__keyed_sweep Sample.NumTensorIds
           toStringDecimal Sample.adapter Sample.populated); reflexivity.
Defined.

(** X7: on a table whose counter is exact, [isEmpty()] holds exactly when no
    kernel can be found: [lookupCatchallKernel] reports absence and [lookup]
    reports absence for every key of the array. *)
Theorem isEmpty_iff_no_kernel_found (N : nat) (d : DispatchTable.t) :
  sized N (DispatchTable.kernels_ d) ->
  counted (DispatchTable.kernels_ d) ->
  DispatchTable.isEmpty d = true
  <-> DispatchTable.lookupCatchallKernel d = None
      /\ forall k, (k < N)%nat -> DispatchTable.lookup k d = Some None.
Proof.
  intros Hs Hc. unfold DispatchTable.isEmpty, DispatchTable.lookupCatchallKernel.
  rewrite andb_true_iff, Z.eqb_eq. unfold counted in Hc. rewrite Hc.
  assert (Z.of_nat (validCount (KernelFunctionTable.kernels_ (DispatchTable.kernels_ d))) = 0
          <-> forall k, (k < N)%nat -> DispatchTable.lookup k d = Some None)
    as ->.
  { rewrite <- Nat2Z.inj_0, Nat2Z.inj_iff, validCount_zero_iff.
    unfold DispatchTable.lookup, KernelFunctionTable.at_. split.
    - intros Hall k Hk. destruct (slot_in_range N _ k Hs Hk) as [slot E].
      rewrite E, (Hall k slot E). reflexivity.
    - intros Hall k slot E. specialize (Hall k).
      rewrite E in Hall.
      destruct (KernelFunction.isValid slot); [|reflexivity].
      assert (k < N)%nat as Hk
        by (apply lookup_lt_Some in E; unfold sized in Hs; lia).
      specialize (Hall Hk). discriminate. }
  destruct (KernelFunction.isValid (DispatchTable.catchallKernel_ d)); cbn;
    split; intros [H1 H2]; try discriminate; auto.
Qed.

Lemma isEmpty_iff_no_kernel_found_witness :
  DispatchTable.isEmpty Sample.fresh = true
  <-> DispatchTable.lookupCatchallKernel Sample.fresh = None
      /\ forall k, (k < Sample.NumTensorIds)%nat ->
                   DispatchTable.lookup k Sample.fresh = Some None.
Proof.
  apply (isEmpty_iff_no_kernel_found Sample.NumTensorIds Sample.fresh);
    reflexivity.
Defined.

(** X8: no table built from the constructed one by calls of the mutators,
    whatever their arguments, holds a kernel at the undefined key: [lookup]
    of it reports absence and the listing does not name it.  When every
    [KernelFunction] handed to [setKernel] was valid, [size()] stays between
    zero and the number of keys, below it when the undefined key is one of
    the keys of the array. *)
Theorem undefined_key_holds_no_kernel
    (N : nat) (undef : TensorTypeId) (schema : DispatchTable.FunctionSchema)
    (ops : list Op) (d : DispatchTable.t) :
  run N undef ops (DispatchTable.make N schema) = Some d ->
  DispatchTable.lookup undef d
  = (if decide (undef < N)%nat then Some None else None)
  /\ (undef ∉ occupiedKeys N (DispatchTable.kernels_ d))
  /\ ((N <= 255)%nat ->
      Forall registers_kernels ops ->
      0 <= KernelFunctionTable.size (DispatchTable.kernels_ d) <= Z.of_nat N
      /\ ((undef < N)%nat ->
          KernelFunctionTable.size (DispatchTable.kernels_ d) < Z.of_nat N)).
Proof.
  intros Hrun.
  destruct (run_make_sentinel_free N undef schema ops d Hrun) as [Hs Ho].
  split; [|split].
  - unfold DispatchTable.lookup. unfold occupied in Ho. case_decide as Hu.
    + destruct (slot_in_range N _ undef Hs Hu) as [slot E].
      unfold KernelFunctionTable.at_ in *. rewrite E in *. rewrite Ho.
      reflexivity.
    + unfold KernelFunctionTable.at_, sized in *.
      rewrite lookup_ge_None_2 by lia. reflexivity.
  - rewrite (occupiedKeys_elem N _ undef Hs). congruence.
  - intros HN Hops.
    assert (reachable N undef schema d) as Hd
      by (eapply run_reachable; [apply reachable_make|exact Hops|exact Hrun]).
    destruct (reachable_invariant N undef HN schema d Hd) as (_ & Hc & _).
    unfold counted, KernelFunctionTable.size, sized in *.
    pose proof (validCount_le (KernelFunctionTable.kernels_ (DispatchTable.kernels_ d))).
    split; [lia|].
    intros Hu. destruct (slot_in_range N _ undef Hs Hu) as [slot E].
    unfold occupied, KernelFunctionTable.at_ in Ho. rewrite E in Ho.
    pose proof (validCount_lt _ _ _ E Ho). lia.
Qed.

Lemma undefined_key_holds_no_kernel_witness :
  DispatchTable.lookup Sample.UndefinedTensorId Sample.populated = Some None
  /\ (Sample.UndefinedTensorId
       ∉ occupiedKeys Sample.NumTensorIds
           (DispatchTable.kernels_ Sample.populated))
  /\ 0 <= KernelFunctionTable.size (DispatchTable.kernels_ Sample.populated)
       <= Z.of_nat Sample.NumTensorIds
  /\ KernelFunctionTable.size (DispatchTable.kernels_ Sample.populated)
     < Z.of_nat Sample.NumTensorIds.
Proof.
  destruct (undefined_key_holds_no_kernel Sample.NumTensorIds
              Sample.UndefinedTensorId Sample.add_schema
              [OpSetKernel 1 Sample.f1; OpSetKernel 4 Sample.f2;
               OpSetCatchallKernel Sample.f3]
              Sample.populated eq_refl) as (Hlookup & Hlisted & Hsize).
  destruct Hsize as [Hbounds Hbelow].
  - unfold Sample.NumTensorIds. lia.
  - repeat constructor.
  - split; [exact Hlookup|]. split; [exact Hlisted|].
    split; [exact Hbounds|]. apply Hbelow.
    unfold Sample.NumTensorIds, Sample.UndefinedTensorId. lia.
Defined.

(** ** Further properties: sequences of calls *)

Lemma exec_fixed_fields N undef op d d' :
  exec N undef op d = Some d' ->
  DispatchTable.operatorName_ d' = DispatchTable.operatorName_ d
  /\ DispatchTable.dispatchKeyExtractor_ d' = DispatchTable.dispatchKeyExtractor_ d.
Proof.
  destruct op as [k kernel|k|kernel| |func]; cbn [exec].
  - unfold DispatchTable.setKernel.
    destruct (KernelFunctionTable.setKernel undef k
                (DispatchTable.applyManuallyBoxedKernel d kernel)
                (DispatchTable.kernels_ d)); cbn; intros [= <-]; auto.
  - unfold DispatchTable.removeKernelIfExists.
    destruct (KernelFunctionTable.removeKernelIfExists k (DispatchTable.kernels_ d));
      cbn; intros [= <-]; auto.
  - cbn. intros [= <-]. auto.
  - unfold DispatchTable.removeCatchallKernel.
    destruct (KernelFunction.isValid (DispatchTable.catchallKernel_ d));
      cbn; intros [= <-]; auto.
  - unfold DispatchTable.setManuallyBoxedKernel_.
    destruct (DispatchTable.manuallyBoxedKernel_ d);
      [cbn; intros [= <-]; auto|].
    destruct (DispatchTable.setManuallyBoxedKernel_loop func (seq 0 N)
                (DispatchTable.kernels_ d)); cbn; intros [= <-]; auto.
Qed.

(** X9: the name of the operator and the key extractor are fixed at
    construction: after any sequence of calls of the five mutators on the
    constructed table, whatever their arguments and whether they return or
    fail an assertion, [operatorName()] is the name of the schema and
    [dispatchKeyExtractor()] the extractor made from it. *)
Theorem operatorName_and_dispatchKeyExtractor_fixed
    (N : nat) (undef : TensorTypeId) (schema : DispatchTable.FunctionSchema)
    (ops : list Op) (d : DispatchTable.t) :
  run N undef ops (DispatchTable.make N schema) = Some d ->
  DispatchTable.operatorName d = DispatchTable.operator_name schema
  /\ DispatchTable.dispatchKeyExtractor d
     = DispatchTable.DispatchKeyExtractor_make schema.
Proof.
  unfold DispatchTable.operatorName, DispatchTable.dispatchKeyExtractor.
  change (DispatchTable.operator_name schema)
    with (DispatchTable.operatorName_ (DispatchTable.make N schema)).
  change (DispatchTable.DispatchKeyExtractor_make schema)
    with (DispatchTable.dispatchKeyExtractor_ (DispatchTable.make N schema)).
  generalize (DispatchTable.make N schema) as d0.
  induction ops as [|op ops IH]; intros d0; cbn [run].
  - intros [= <-]. auto.
  - destruct (exec N undef op d0) as [d1|] eqn:E; [|discriminate].
    intros Hrun. destruct (exec_fixed_fields _ _ _ _ _ E) as [<- <-].
    apply IH, Hrun.
Qed.

Lemma operatorName_and_dispatchKeyExtractor_fixed_witness :
  DispatchTable.operatorName Sample.populated = "add"
  /\ DispatchTable.dispatchKeyExtractor Sample.populated
     = DispatchTable.DispatchKeyExtractor_make Sample.add_schema.
Proof.
  apply (operatorName_and_dispatchKeyExtractor_fixed Sample.NumTensorIds
           Sample.UndefinedTensorId Sample.add_schema
           [OpSetKernel 1 Sample.f1; OpSetKernel 4 Sample.f2;
            OpSetCatchallKernel Sample.f3] Sample.populated).
  reflexivity.
Defined.

(** X10: [removeKernelIfExists] is idempotent.  For a key inside the array, a
    second call right after the first finds the slot empty, reports that the
    kernel did not exist, and leaves the table as the first call left it. *)
Theorem removeKernelIfExists_idempotent
    (N : nat) (k : TensorTypeId) (d : DispatchTable.t) :
  sized N (DispatchTable.kernels_ d) ->
  (k < N)%nat ->
  exists d',
    DispatchTable.removeKernelIfExists k d = Returned tt d'
    /\ KernelFunctionTable.removeKernelIfExists k (DispatchTable.kernels_ d')
       = Returned KernelFunctionTable.KERNEL_DIDNT_EXIST (DispatchTable.kernels_ d')
    /\ DispatchTable.removeKernelIfExists k d' = Returned tt d'.
Proof.
  intros Hs Hk. destruct (slot_in_range N _ k Hs Hk) as [slot E].
  assert (k < length (KernelFunctionTable.kernels_ (DispatchTable.kernels_ d)))%nat
    as Hlen by (eapply lookup_lt_Some, E).
  eexists. split; [apply (removeKernelIfExists_returns _ _ _ E)|].
  destruct (KernelFunction.isValid slot) eqn:Ev.
  - assert (KernelFunctionTable.kernels_
              (DispatchTable.kernels_
                 (DispatchTable.with_kernels
                    (KernelFunctionTable.mk
                       (<[k := KernelFunction.empty]>
                          (KernelFunctionTable.kernels_ (DispatchTable.kernels_ d)))
                       (size_t_decr
                          (KernelFunctionTable.kernelCount_ (DispatchTable.kernels_ d))))
                    d)) !! k = Some KernelFunction.empty) as E'.
    { proj. apply list_lookup_insert_eq, Hlen. }
    rewrite (removeKernelIfExists_at _ _ _ E'),
      (removeKernelIfExists_returns _ _ _ E'), isValid_empty. auto.
  - rewrite (removeKernelIfExists_at _ _ _ E),
      (removeKernelIfExists_returns _ _ _ E), Ev. auto.
Qed.

Lemma removeKernelIfExists_idempotent_witness :
  exists d',
    DispatchTable.removeKernelIfExists 4 Sample.populated = Returned tt d'
    /\ KernelFunctionTable.removeKernelIfExists 4 (DispatchTable.kernels_ d')
       = Returned KernelFunctionTable.KERNEL_DIDNT_EXIST (DispatchTable.kernels_ d')
    /\ DispatchTable.removeKernelIfExists 4 d' = Returned tt d'.
Proof.
  apply (removeKernelIfExists_idempotent Sample.NumTensorIds 4 Sample.populated).
  - reflexivity.
  - unfold Sample.NumTensorIds. lia.
Defined.

(** X11: registrations at distinct keys commute.  For two distinct keys
    inside the array, neither the undefined one, [setKernel(k1, f1)] then
    [setKernel(k2, f2)] leaves the same table, slots and counter, as the two
    calls in the other order. *)
Theorem setKernel_commutes
    (N : nat) (undef k1 k2 : TensorTypeId) (f1 f2 : KernelFunction.t)
    (d : DispatchTable.t) :
  sized N (DispatchTable.kernels_ d) ->
  (k1 < N)%nat -> (k2 < N)%nat ->
  k1 <> undef -> k2 <> undef ->
  k1 <> k2 ->
  exists d',
    run N undef [OpSetKernel k1 f1; OpSetKernel k2 f2] d = Some d'
    /\ run N undef [OpSetKernel k2 f2; OpSetKernel k1 f1] d = Some d'.
Proof.
  intros Hs Hk1 Hk2 Hu1 Hu2 Hne.
  destruct (slot_in_range N _ k1 Hs Hk1) as [s1 E1].
  destruct (slot_in_range N _ k2 Hs Hk2) as [s2 E2].
  cbn [run exec].
  rewrite (setKernel_returns _ _ _ _ _ Hu1 E1), (setKernel_returns _ _ _ _ _ Hu2 E2).
  cbn [left_behind].
  erewrite (setKernel_returns undef k2 f2 _ s2 Hu2).
  2:{ proj. rewrite list_lookup_insert_ne by congruence. exact E2. }
  erewrite (setKernel_returns undef k1 f1 _ s1 Hu1).
  2:{ proj. rewrite list_lookup_insert_ne by congruence. exact E1. }
  cbn [left_behind]. eexists. split; [reflexivity|].
  f_equal. unfold DispatchTable.with_kernels, DispatchTable.applyManuallyBoxedKernel.
  proj. rewrite (list_insert_insert_ne _ k2 k1) by congruence.
  destruct (KernelFunction.isValid s1), (KernelFunction.isValid s2); reflexivity.
Qed.

Lemma setKernel_commutes_witness :
  exists d',
    run Sample.NumTensorIds Sample.UndefinedTensorId
      [OpSetKernel 1 Sample.f1; OpSetKernel 4 Sample.f2] Sample.fresh = Some d'
    /\ run Sample.NumTensorIds Sample.UndefinedTensorId
         [OpSetKernel 4 Sample.f2; OpSetKernel 1 Sample.f1] Sample.fresh = Some d'.
Proof.
  apply (setKernel_commutes Sample.NumTensorIds Sample.UndefinedTensorId
           1 4 Sample.f1 Sample.f2 Sample.fresh).
  - reflexivity.
  - unfold Sample.NumTensorIds. lia.
  - unfold Sample.NumTensorIds. lia.
  - unfold Sample.UndefinedTensorId. lia.
  - unfold Sample.UndefinedTensorId. lia.
  - lia.
Defined.




(** X13: [removeCatchallKernel] cannot be repeated.  When a catch-all kernel
    is installed the call returns, and a second call right after it fails its
    assertion and leaves the table as the first call left it. *)
Theorem removeCatchallKernel_twice (d : DispatchTable.t) :
  KernelFunction.isValid (DispatchTable.catchallKernel_ d) = true ->
  exists d',
    DispatchTable.removeCatchallKernel d = Returned tt d'
    /\ DispatchTable.removeCatchallKernel d' = AssertFailed d'
    /\ DispatchTable.isEmpty d'
       = (KernelFunctionTable.size (DispatchTable.kernels_ d) =? 0).
Proof.
  intros Hv. unfold DispatchTable.removeCatchallKernel at 1. rewrite Hv.
  eexists. split; [reflexivity|]. split; reflexivity.
Qed.

Lemma removeCatchallKernel_twice_witness :
  exists d',
    DispatchTable.removeCatchallKernel Sample.populated = Returned tt d'
    /\ DispatchTable.removeCatchallKernel d' = AssertFailed d'
    /\ DispatchTable.isEmpty d' = false.
Proof.
  apply (removeCatchallKernel_twice Sample.populated). reflexivity.
Defined.

(** X14: the last registration at a key absorbs the one before it.  For a
    key inside the array other than the undefined one, [setKernel(k, f)] of
    a kernel followed by [setKernel(k, g)] leaves the same table, slots and
    counter, as [setKernel(k, g)] alone. *)
Theorem setKernel_absorbs
    (N : nat) (undef k : TensorTypeId) (f g : KernelFunction.t)
    (d : DispatchTable.t) :
  sized N (DispatchTable.kernels_ d) ->
  (k < N)%nat ->
  k <> undef ->
  KernelFunction.isValid f = true ->
  exists d',
    run N undef [OpSetKernel k f; OpSetKernel k g] d = Some d'
    /\ run N undef [OpSetKernel k g] d = Some d'.
Proof.
  intros Hs Hk Hu Hf.
  destruct (slot_in_range N _ k Hs Hk) as [slot E].
  assert (k < length (KernelFunctionTable.kernels_ (DispatchTable.kernels_ d)))%nat
    as Hlen by (eapply lookup_lt_Some, E).
  cbn [run exec]. rewrite !(setKernel_returns _ _ _ _ _ Hu E).
  cbn [left_behind].
  erewrite (setKernel_returns undef k g _ _ Hu).
  2:{ proj. apply list_lookup_insert_eq, Hlen. }
  cbn [left_behind]. eexists. split; [reflexivity|].
  f_equal. rewrite isValid_applyManuallyBoxedKernel, Hf.
  unfold DispatchTable.with_kernels, DispatchTable.applyManuallyBoxedKernel.
  proj. rewrite list_insert_insert_eq. reflexivity.
Qed.

Lemma setKernel_absorbs_witness :
  exists d',
    run Sample.NumTensorIds Sample.UndefinedTensorId
      [OpSetKernel 2 Sample.f1; OpSetKernel 2 Sample.f2] Sample.populated
    = Some d'
    /\ run Sample.NumTensorIds Sample.UndefinedTensorId
         [OpSetKernel 2 Sample.f2] Sample.populated = Some d'.
Proof.
  apply (setKernel_absorbs Sample.NumTensorIds Sample.UndefinedTensorId
           2 Sample.f1 Sample.f2 Sample.populated).
  - reflexivity.
  - unfold Sample.NumTensorIds. lia.
  - unfold Sample.UndefinedTensorId. lia.
  - reflexivity.
Defined.

(** X15: the keys the listing names follow the registrations.  For a key [k]
    inside the array other than the undefined one, after [setKernel(k, f)]
    of a kernel the occupied keys are those of before and [k]; after
    [removeKernelIfExists(k)] they are those of before without [k]. *)
Theorem occupiedKeys_after_registration
    (N : nat) (undef k : TensorTypeId) (f : KernelFunction.t)
    (d : DispatchTable.t) :
  sized N (DispatchTable.kernels_ d) ->
  (k < N)%nat ->
  k <> undef ->
  KernelFunction.isValid f = true ->
  (exists ws d',
     DispatchTable.setKernel undef k f d = Returned ws d'
     /\ forall j, j ∈ occupiedKeys N (DispatchTable.kernels_ d')
                  <-> j = k \/ j ∈ occupiedKeys N (DispatchTable.kernels_ d))
  /\ (exists d',
        DispatchTable.removeKernelIfExists k d = Returned tt d'
        /\ forall j, j ∈ occupiedKeys N (DispatchTable.kernels_ d')
                     <-> j <> k /\ j ∈ occupiedKeys N (DispatchTable.kernels_ d)).
Proof.
  intros Hs Hk Hu Hf.
  destruct (slot_in_range N _ k Hs Hk) as [slot E].
  assert (k < length (KernelFunctionTable.kernels_ (DispatchTable.kernels_ d)))%nat
    as Hlen by (eapply lookup_lt_Some, E).
  split.
  - eexists _, _. split; [apply (setKernel_returns _ _ _ _ _ Hu E)|].
    intros j. rewrite !occupiedKeys_elem;
      [|exact Hs|unfold sized in *; proj; rewrite length_insert; exact Hs].
    proj. destruct (decide (j = k)) as [->|Hne].
    + unfold occupied at 1. unfold KernelFunctionTable.at_. proj.
      rewrite list_lookup_insert_eq by exact Hlen.
      rewrite isValid_applyManuallyBoxedKernel, Hf. tauto.
    + rewrite occupied_insert_ne by exact Hne. tauto.
  - destruct (KernelFunctionTable.removeKernelIfExists k (DispatchTable.kernels_ d))
      as [r tb'|tb'|] eqn:Er.
    + exists (DispatchTable.with_kernels tb' d).
      split; [unfold DispatchTable.removeKernelIfExists; rewrite Er; reflexivity|].
      intros j. proj.
      pose proof (removeKernelIfExists_sized N _ _ _ _ Hs Er) as Hs'.
      rewrite !occupiedKeys_elem by assumption.
      rewrite (removeKernelIfExists_occupied _ _ _ _ j Er).
      rewrite andb_true_iff, negb_true_iff, bool_decide_eq_false. tauto.
    + exfalso. eapply removeKernelIfExists_never_asserts, Er.
    + rewrite (removeKernelIfExists_at _ _ _ E) in Er.
      destruct (KernelFunction.isValid slot); discriminate.
Qed.

Lemma occupiedKeys_after_registration_witness :
  (exists ws d',
     DispatchTable.setKernel Sample.UndefinedTensorId 2 Sample.f3 Sample.populated
     = Returned ws d'
     /\ forall j,
          j ∈ occupiedKeys Sample.NumTensorIds (DispatchTable.kernels_ d')
          <-> j = 2%nat
              \/ j ∈ occupiedKeys Sample.NumTensorIds
                      (DispatchTable.kernels_ Sample.populated))
  /\ (exists d',
        DispatchTable.removeKernelIfExists 2 Sample.populated = Returned tt d'
        /\ forall j,
             j ∈ occupiedKeys Sample.NumTensorIds (DispatchTable.kernels_ d')
             <-> j <> 2%nat
                 /\ j ∈ occupiedKeys Sample.NumTensorIds
                         (DispatchTable.kernels_ Sample.populated)).
Proof.
  apply (occupiedKeys_after_registration Sample.NumTensorIds
           Sample.UndefinedTensorId 2 Sample.f3 Sample.populated).
  - reflexivity.
  - unfold Sample.NumTensorIds. lia.
  - unfold Sample.UndefinedTensorId. lia.
  - reflexivity.
Defined.
